(** * payment-platform: the Express relay of [server.js]

    A shallow embedding of the request handlers of [server.js] and of the
    platform functions they call (JSON parsing and printing, HMAC-SHA256,
    truthiness and numeric coercion of JavaScript values), followed by the
    properties of the handlers.

    Conventions.
    - Byte sequences and JavaScript strings are [string]s; the model covers
      ASCII text, where a JavaScript string and its UTF-8 encoding coincide.
    - A JavaScript number is modelled on the integers that a double holds
      exactly ([Int z] with [|z| <= 2^53]) together with [NaN]; an operation
      whose result leaves that fragment returns [None]. The product of
      line 57 is also given on the doubles themselves ([minor_units]).
    - [req.body] is what the body parsers of lines 26-27 leave: an object
      or an array ([parsed_body]); query parameters and headers are absent
      or strings.
    - The clock, the random generator and the payment processor are inputs
      of the handlers (record [env]); a handler returns the outbound calls
      it made together with the response it sent. *)

From Stdlib Require Import ZArith List Bool Ascii String Lia.
From Stdlib Require Import DecimalString DecimalZ DecimalPos DecimalFacts.
From Corelib Require Import PrimFloat.
Import ListNotations.

Set Warnings "-register-all".
Set Warnings "-inexact-float".

Local Open Scope string_scope.
Local Open Scope Z_scope.

(* ================================================================== *)
(** ** Bytes and hexadecimal *)

Definition byte_of_ascii (c : ascii) : Z := Z.of_N (N_of_ascii c).

Definition ascii_of_byte (b : Z) : ascii := ascii_of_N (Z.to_N (b mod 256)).

Fixpoint bytes_of_string (s : string) : list Z :=
  match s with
  | EmptyString => []
  | String c s' => byte_of_ascii c :: bytes_of_string s'
  end.

Definition hex_digit (d : Z) : ascii :=
  if d <? 10 then ascii_of_byte (48 + d) else ascii_of_byte (87 + d).

Definition hex_of_byte (b : Z) : string :=
  String (hex_digit (Z.shiftr b 4)) (String (hex_digit (Z.land b 15)) EmptyString).

(** Lower-case hexadecimal, two digits per byte: [Buffer.toString('hex')]. *)
Fixpoint hex_of_bytes (l : list Z) : string :=
  match l with
  | [] => EmptyString
  | b :: l' => hex_of_byte b ++ hex_of_bytes l'
  end.

(* ================================================================== *)
(** ** SHA-256 (FIPS 180-4) and HMAC (RFC 2104)

    [crypto.createHmac('sha256', key).update(msg).digest('hex')]. Words are
    32-bit values held in [Z]; every addition is reduced modulo [2^32]. *)

Module Sha256.

Definition wrap (x : Z) : Z := Z.land x 0xffffffff.

Definition add32 (x y : Z) : Z := wrap (x + y).

Definition rotr (n x : Z) : Z :=
  Z.lor (Z.shiftr x n) (wrap (Z.shiftl x (32 - n))).

Definition not32 (x : Z) : Z := Z.lxor x 0xffffffff.

Definition Ch (x y z : Z) : Z := Z.lxor (Z.land x y) (Z.land (not32 x) z).

Definition Maj (x y z : Z) : Z :=
  Z.lxor (Z.lxor (Z.land x y) (Z.land x z)) (Z.land y z).

Definition bsig0 (x : Z) : Z := Z.lxor (Z.lxor (rotr 2 x) (rotr 13 x)) (rotr 22 x).
Definition bsig1 (x : Z) : Z := Z.lxor (Z.lxor (rotr 6 x) (rotr 11 x)) (rotr 25 x).
Definition ssig0 (x : Z) : Z := Z.lxor (Z.lxor (rotr 7 x) (rotr 18 x)) (Z.shiftr x 3).
Definition ssig1 (x : Z) : Z := Z.lxor (Z.lxor (rotr 17 x) (rotr 19 x)) (Z.shiftr x 10).

(** The constants of FIPS 180-4, sections 4.2.2 and 5.3.3: the first 32
    bits of the fractional parts of the cube roots (for [K]) and of the
    square roots (for [H0]) of the first primes, computed here from the
    primes themselves. *)
Definition is_prime (n : Z) : bool :=
  (2 <=? n)
  && forallb (fun d => negb (n mod d =? 0))
             (map Z.of_nat (seq 2 (Z.to_nat n - 2))).

Definition primes_below (bound : nat) : list Z :=
  filter is_prime (map Z.of_nat (seq 0 bound)).

(** Integer cube root, built from the top bit down. *)
Fixpoint cube_root_bits (bits : nat) (n r : Z) : Z :=
  match bits with
  | O => r
  | S bits' =>
      let r' := Z.lor r (Z.shiftl 1 (Z.of_nat bits')) in
      cube_root_bits bits' n (if r' * r' * r' <=? n then r' else r)
  end.

Definition frac_cube_root (p : Z) : Z :=
  wrap (cube_root_bits 40 (Z.shiftl p 96) 0).

Definition frac_square_root (p : Z) : Z :=
  wrap (Z.sqrt (Z.shiftl p 64)).

Definition K : list Z := map frac_cube_root (primes_below 312).

Definition H0 : list Z := map frac_square_root (primes_below 20).

(** Padding: the byte 0x80, zero bytes up to 56 modulo 64, then the bit
    length as a 64-bit big-endian integer. *)
Fixpoint be_bytes (n : nat) (x : Z) : list Z :=
  match n with
  | O => []
  | S n' => Z.land (Z.shiftr x (8 * Z.of_nat n')) 255 :: be_bytes n' x
  end.

Definition pad (msg : list Z) : list Z :=
  let len := Z.of_nat (List.length msg) in
  let zeros := Z.to_nat ((55 - len) mod 64) in
  msg ++ [128] ++ repeat 0 zeros ++ be_bytes 8 (8 * len).

Definition word_of_bytes (a b c d : Z) : Z :=
  Z.lor (Z.lor (Z.shiftl a 24) (Z.shiftl b 16)) (Z.lor (Z.shiftl c 8) d).

Fixpoint words_of_bytes (l : list Z) : list Z :=
  match l with
  | a :: b :: c :: d :: l' => word_of_bytes a b c d :: words_of_bytes l'
  | _ => []
  end.

(** Message schedule. The schedule is kept newest-first, so that
    [W(t-2)], [W(t-7)], [W(t-15)] and [W(t-16)] sit at positions 1, 6, 14
    and 15. *)
Definition next_w (rev_w : list Z) : Z :=
  add32 (add32 (ssig1 (nth 1 rev_w 0)) (nth 6 rev_w 0))
        (add32 (ssig0 (nth 14 rev_w 0)) (nth 15 rev_w 0)).

Fixpoint extend (n : nat) (rev_w : list Z) : list Z :=
  match n with
  | O => rev_w
  | S n' => extend n' (next_w rev_w :: rev_w)
  end.

Definition schedule (block : list Z) : list Z := rev (extend 48 (rev block)).

Record regs : Type := Regs { ra : Z; rb : Z; rc : Z; rd : Z; re : Z; rf : Z; rg : Z; rh : Z }.

Definition round (s : regs) (kw : Z * Z) : regs :=
  let '(k, w) := kw in
  let t1 := add32 (add32 (add32 (rh s) (bsig1 (re s))) (add32 (Ch (re s) (rf s) (rg s)) k)) w in
  let t2 := add32 (bsig0 (ra s)) (Maj (ra s) (rb s) (rc s)) in
  Regs (add32 t1 t2) (ra s) (rb s) (rc s) (add32 (rd s) t1) (re s) (rf s) (rg s).

Definition regs_of_list (h : list Z) : regs :=
  Regs (nth 0 h 0) (nth 1 h 0) (nth 2 h 0) (nth 3 h 0)
       (nth 4 h 0) (nth 5 h 0) (nth 6 h 0) (nth 7 h 0).

Definition list_of_regs (s : regs) : list Z :=
  [ra s; rb s; rc s; rd s; re s; rf s; rg s; rh s].

Definition compress (h : list Z) (block : list Z) : list Z :=
  let s := fold_left round (combine K (schedule block)) (regs_of_list h) in
  map (fun p => add32 (fst p) (snd p)) (combine h (list_of_regs s)).

Fixpoint blocks (n : nat) (ws : list Z) : list (list Z) :=
  match n with
  | O => []
  | S n' =>
      match ws with
      | [] => []
      | _ => firstn 16 ws :: blocks n' (skipn 16 ws)
      end
  end.

Definition digest_words (msg : list Z) : list Z :=
  let ws := words_of_bytes (pad msg) in
  fold_left compress (blocks (List.length ws) ws) H0.

Definition sha256 (msg : list Z) : list Z :=
  flat_map (be_bytes 4) (digest_words msg).

Definition block_size : nat := 64.

Definition hmac_key (key : list Z) : list Z :=
  let k := if (Nat.ltb block_size (List.length key)) then sha256 key else key in
  k ++ repeat 0 (block_size - List.length k).

Definition hmac (key msg : list Z) : list Z :=
  let k := hmac_key key in
  let ipad := map (fun b => Z.lxor b 0x36) k in
  let opad := map (fun b => Z.lxor b 0x5c) k in
  sha256 (opad ++ sha256 (ipad ++ msg)).

End Sha256.

(** [crypto.createHmac('sha256', secret).update(msg).digest('hex')] *)
Definition hmac_sha256_hex (secret msg : string) : string :=
  hex_of_bytes (Sha256.hmac (bytes_of_string secret) (bytes_of_string msg)).

(* ================================================================== *)
(** ** JavaScript values *)

(** Numbers: the integers a double holds exactly, and [NaN]. *)
Inductive number : Type :=
| Int (z : Z)
| NaN.

(** An object is its list of own properties in property order. *)
Inductive jsval : Type :=
| Undefined
| Null
| Bool (b : bool)
| Num (n : number)
| Str (s : string)
| Arr (items : list jsval)
| Obj (props : list (string * jsval)).

Definition max_safe : Z := 2 ^ 53.

Definition exact (z : Z) : bool := (Z.abs z <=? max_safe).

(** ToBoolean: [undefined], [null], [false], [0], [NaN] and the empty
    string are falsy; everything else, objects and arrays included, is
    truthy. *)
Definition truthy (v : jsval) : bool :=
  match v with
  | Undefined | Null => false
  | Bool b => b
  | Num (Int z) => negb (z =? 0)
  | Num NaN => false
  | Str s => negb (String.eqb s "")
  | Arr _ | Obj _ => true
  end.

(** [a || b] *)
Definition js_or (a b : jsval) : jsval := if truthy a then a else b.

Fixpoint lookup (k : string) (l : list (string * jsval)) : option jsval :=
  match l with
  | [] => None
  | (k', v) :: l' => if String.eqb k k' then Some v else lookup k l'
  end.

(** [v?.k], and [v.k] for a value [v] that is neither [undefined] nor
    [null], for a name [k] that no prototype defines (the names read in
    [server.js]: email, amount, currency, reference, event, data, meta,
    message). Primitives and arrays have no such property. *)
Definition get_prop (v : jsval) (k : string) : jsval :=
  match v with
  | Obj l => match lookup k l with Some x => x | None => Undefined end
  | _ => Undefined
  end.

(* ================================================================== *)
(** ** Decimal numerals *)

(** Number::toString on an integer below [10^21]: plain decimal digits,
    with a minus sign for negatives. *)
Definition dec (z : Z) : string := NilEmpty.string_of_int (Z.to_int z).

Definition is_digit (c : ascii) : bool :=
  let b := byte_of_ascii c in (48 <=? b) && (b <=? 57).

Definition digit_val (c : ascii) : Z := byte_of_ascii c - 48.

(** Value of a run of decimal digits, most significant first. *)
Fixpoint digits_val (acc : Z) (s : string) : Z :=
  match s with
  | EmptyString => acc
  | String c s' => digits_val (10 * acc + digit_val c) s'
  end.

Fixpoint all_chars (p : ascii -> bool) (s : string) : bool :=
  match s with
  | EmptyString => true
  | String c s' => p c && all_chars p s'
  end.

(** Longest prefix of characters satisfying [p], and the rest. *)
Fixpoint span (p : ascii -> bool) (s : string) : string * string :=
  match s with
  | EmptyString => (EmptyString, EmptyString)
  | String c s' =>
      if p c then let '(a, b) := span p s' in (String c a, b)
      else (EmptyString, s)
  end.

(* ================================================================== *)
(** ** JSON.stringify *)

Definition dquote : ascii := "034"%char.
Definition backslash : ascii := "\"%char.

Definition str1 (c : ascii) : string := String c EmptyString.

(** QuoteJSONString on one ASCII character. *)
Definition escape_char (c : ascii) : string :=
  let b := byte_of_ascii c in
  if b =? 34 then String backslash (str1 dquote)
  else if b =? 92 then String backslash (str1 backslash)
  else if b =? 8 then String backslash "b"
  else if b =? 9 then String backslash "t"
  else if b =? 10 then String backslash "n"
  else if b =? 12 then String backslash "f"
  else if b =? 13 then String backslash "r"
  else if b <? 32 then String backslash ("u00" ++ hex_of_byte b)
  else str1 c.

Fixpoint escape (s : string) : string :=
  match s with
  | EmptyString => EmptyString
  | String c s' => escape_char c ++ escape s'
  end.

Definition quote (s : string) : string :=
  String dquote (escape s ++ str1 dquote).

Fixpoint join (sep : string) (l : list string) : string :=
  match l with
  | [] => EmptyString
  | [x] => x
  | x :: l' => x ++ sep ++ join sep l'
  end.

Definition number_to_json (n : number) : string :=
  match n with
  | Int z => dec z
  | NaN => "null"
  end.

(** SerializeJSONProperty: [None] stands for [undefined] (the value is
    not serializable). An [undefined] array element is printed as [null],
    an [undefined] property is left out. *)
Fixpoint serialize (v : jsval) : option string :=
  match v with
  | Undefined => None
  | Null => Some "null"
  | Bool true => Some "true"
  | Bool false => Some "false"
  | Num n => Some (number_to_json n)
  | Str s => Some (quote s)
  | Arr items =>
      Some ("[" ++ join ","
              (map (fun x => match serialize x with
                             | Some s => s
                             | None => "null"
                             end) items) ++ "]")
  | Obj props =>
      Some ("{" ++ join ","
              ((fix members (l : list (string * jsval)) : list string :=
                  match l with
                  | [] => []
                  | (k, x) :: l' =>
                      match serialize x with
                      | Some s => (quote k ++ ":" ++ s) :: members l'
                      | None => members l'
                      end
                  end) props) ++ "}")
  end.

(** [JSON.stringify(v)] as a string. It is one for every [v] other than
    [undefined] (lemma [JSON_stringify_defined]); the handlers apply it to
    parsed bodies only. *)
Definition JSON_stringify (v : jsval) : string :=
  match serialize v with
  | Some s => s
  | None => EmptyString
  end.

(* ================================================================== *)
(** ** JSON.parse and the [express.json()] middleware

    The parser covers the JSON texts made of ASCII characters whose numbers
    are integer literals of magnitude at most [2^53] and whose [\u] escapes
    denote ASCII characters. It returns [None] on any other input, be it
    malformed or outside that fragment. *)

Definition is_json_ws (c : ascii) : bool :=
  let b := byte_of_ascii c in
  (b =? 32) || (b =? 9) || (b =? 10) || (b =? 13).

Fixpoint skip_ws (s : string) : string :=
  match s with
  | EmptyString => s
  | String c s' => if is_json_ws c then skip_ws s' else s
  end.

Definition hex_val (c : ascii) : option Z :=
  let b := byte_of_ascii c in
  if (48 <=? b) && (b <=? 57) then Some (b - 48)
  else if (97 <=? b) && (b <=? 102) then Some (b - 87)
  else if (65 <=? b) && (b <=? 70) then Some (b - 55)
  else None.

Definition hex4 (a b c d : ascii) : option Z :=
  match hex_val a, hex_val b, hex_val c, hex_val d with
  | Some x, Some y, Some z, Some w => Some (((x * 16 + y) * 16 + z) * 16 + w)
  | _, _, _, _ => None
  end.

(** The character an escape letter denotes. *)
Definition unescape (e : ascii) : option ascii :=
  let b := byte_of_ascii e in
  if b =? 34 then Some dquote
  else if b =? 92 then Some backslash
  else if b =? 47 then Some "/"%char
  else if b =? 98 then Some (ascii_of_byte 8)
  else if b =? 102 then Some (ascii_of_byte 12)
  else if b =? 110 then Some (ascii_of_byte 10)
  else if b =? 114 then Some (ascii_of_byte 13)
  else if b =? 116 then Some (ascii_of_byte 9)
  else None.

Definition cons_fst (c : ascii) (r : option (string * string)) : option (string * string) :=
  match r with
  | Some (a, rest) => Some (String c a, rest)
  | None => None
  end.

(** The characters of a string literal after its opening quote, up to the
    closing quote, and the text after it. *)
Fixpoint parse_chars (s : string) : option (string * string) :=
  match s with
  | EmptyString => None
  | String c s' =>
      let b := byte_of_ascii c in
      if b =? 34 then Some (EmptyString, s')
      else if b =? 92 then
        match s' with
        | EmptyString => None
        | String e s'' =>
            if byte_of_ascii e =? 117 then
              match s'' with
              | String h1 (String h2 (String h3 (String h4 s4))) =>
                  match hex4 h1 h2 h3 h4 with
                  | Some code =>
                      if code <? 128 then cons_fst (ascii_of_byte code) (parse_chars s4)
                      else None
                  | None => None
                  end
              | _ => None
              end
            else
              match unescape e with
              | Some c' => cons_fst c' (parse_chars s'')
              | None => None
              end
        end
      else if (b <? 32) || (127 <? b) then None
      else cons_fst c (parse_chars s')
  end.

(** An integer literal: an optional minus sign, then either a single 0 or
    a run of digits that does not start with 0; not followed by a fraction
    or an exponent. *)
Definition parse_int (s : string) : option (Z * string) :=
  let '(neg, s1) :=
    match s with
    | String "-" r => (true, r)
    | _ => (false, s)
    end in
  let '(ds, rest) :=
    match s1 with
    | String "0" r => ("0", r)
    | _ => span is_digit s1
    end in
  match ds with
  | EmptyString => None
  | _ =>
      let continues :=
        match rest with
        | String c _ =>
            let b := byte_of_ascii c in (b =? 46) || (b =? 101) || (b =? 69)
        | EmptyString => false
        end in
      let z := digits_val 0 ds in
      if continues || negb (exact z) then None
      else Some (if neg then - z else z, rest)
  end.

(** An array index: the canonical numeral of an integer in [0, 2^32 - 2]. *)
Definition array_index (k : string) : option Z :=
  match k with
  | EmptyString => None
  | String c r =>
      if all_chars is_digit k
         && (negb (byte_of_ascii c =? 48) || String.eqb r "")
         && (Nat.leb (String.length k) 10)
         && (digits_val 0 k <=? 4294967294)
      then Some (digits_val 0 k) else None
  end.

Fixpoint replace_prop (k : string) (v : jsval) (l : list (string * jsval))
  : list (string * jsval) :=
  match l with
  | [] => []
  | (k', v') :: l' =>
      if String.eqb k k' then (k', v) :: l' else (k', v') :: replace_prop k v l'
  end.

(** Position of a new index key: before the first key that is not an
    index or is a larger index. *)
Fixpoint insert_index (i : Z) (k : string) (v : jsval) (l : list (string * jsval))
  : list (string * jsval) :=
  match l with
  | [] => [(k, v)]
  | (k', v') :: l' =>
      match array_index k' with
      | Some j => if j <? i then (k', v') :: insert_index i k v l'
                  else (k, v) :: l
      | None => (k, v) :: l
      end
  end.

(** Defining property [k] on an object keeps the order of own properties:
    index keys in ascending order, then the other keys in creation order;
    a key that exists keeps its place and takes the new value. *)
Definition set_prop (k : string) (v : jsval) (l : list (string * jsval))
  : list (string * jsval) :=
  match lookup k l with
  | Some _ => replace_prop k v l
  | None =>
      match array_index k with
      | Some i => insert_index i k v l
      | None => l ++ [(k, v)]
      end
  end.

Definition starts_with_lit (lit s : string) : option string :=
  if String.prefix lit s
  then Some (String.substring (String.length lit)
                              (String.length s - String.length lit) s)
  else None.

(** The first character after white space, as a byte, and what follows. *)
Definition peek (s : string) : option (Z * string) :=
  match skip_ws s with
  | EmptyString => None
  | String c r => Some (byte_of_ascii c, r)
  end.

Definition parse_literal (t : string) : option (jsval * string) :=
  match starts_with_lit "true" t with
  | Some r => Some (Bool true, r)
  | None =>
      match starts_with_lit "false" t with
      | Some r => Some (Bool false, r)
      | None =>
          match starts_with_lit "null" t with
          | Some r => Some (Null, r)
          | None => None
          end
      end
  end.

(** Recursive descent. [parse_value] reads one value after optional white
    space; [parse_elements] and [parse_members] read what follows the
    opening bracket or brace (or a comma). Bytes: 123 and 125 are the
    braces, 91 and 93 the brackets, 34 the quote, 44 the comma, 58 the
    colon, 45 the minus sign. *)
Fixpoint parse_value (fuel : nat) (s : string) : option (jsval * string) :=
  match fuel with
  | O => None
  | S fuel' =>
      match skip_ws s with
      | EmptyString => None
      | String c r as t =>
          let b := byte_of_ascii c in
          if b =? 123 then
            match peek r with
            | Some (b', r') =>
                if b' =? 125 then Some (Obj [], r') else parse_members fuel' r []
            | None => None
            end
          else if b =? 91 then
            match peek r with
            | Some (b', r') =>
                if b' =? 93 then Some (Arr [], r') else parse_elements fuel' r []
            | None => None
            end
          else if b =? 34 then
            match parse_chars r with
            | Some (str, r') => Some (Str str, r')
            | None => None
            end
          else if (b =? 45) || is_digit c then
            match parse_int t with
            | Some (z, r') => Some (Num (Int z), r')
            | None => None
            end
          else parse_literal t
      end
  end

with parse_elements (fuel : nat) (s : string) (acc : list jsval)
  : option (jsval * string) :=
  match fuel with
  | O => None
  | S fuel' =>
      match parse_value fuel' s with
      | Some (v, r) =>
          match peek r with
          | Some (b, r') =>
              if b =? 44 then parse_elements fuel' r' (acc ++ [v])
              else if b =? 93 then Some (Arr (acc ++ [v]), r')
              else None
          | None => None
          end
      | None => None
      end
  end

with parse_members (fuel : nat) (s : string) (acc : list (string * jsval))
  : option (jsval * string) :=
  match fuel with
  | O => None
  | S fuel' =>
      match peek s with
      | Some (q, r) =>
          if q =? 34 then
            match parse_chars r with
            | Some (k, r1) =>
                match peek r1 with
                | Some (colon, r2) =>
                    if colon =? 58 then
                      match parse_value fuel' r2 with
                      | Some (v, r3) =>
                          match peek r3 with
                          | Some (b, r4) =>
                              if b =? 44 then parse_members fuel' r4 (set_prop k v acc)
                              else if b =? 125 then Some (Obj (set_prop k v acc), r4)
                              else None
                          | None => None
                          end
                      | None => None
                      end
                    else None
                | None => None
                end
            | None => None
            end
          else None
      | None => None
      end
  end.

Definition JSON_parse (s : string) : option jsval :=
  match parse_value (2 * String.length s + 2) s with
  | Some (v, r) =>
      match skip_ws r with
      | EmptyString => Some v
      | _ => None
      end
  | None => None
  end.

(** [express.json()] on a request whose content type is JSON: an empty
    body leaves [req.body] the empty object; in strict mode the first
    character after white space must open an object or an array; bodies
    above the default limit of 100kb are refused. [None]: the middleware
    answers the request itself and the route handler does not run. *)
Definition express_json (raw : string) : option jsval :=
  if 102400 <? Z.of_nat (String.length raw) then None
  else
    match raw with
    | EmptyString => Some (Obj [])
    | _ =>
        match peek raw with
        | Some (b, _) => if (b =? 123) || (b =? 91) then JSON_parse raw else None
        | None => None
        end
    end.

(** Writes a JSON text with single quotes standing for double quotes. *)
Fixpoint dq (s : string) : string :=
  match s with
  | EmptyString => EmptyString
  | String c s' => String (if byte_of_ascii c =? 39 then dquote else c) (dq s')
  end.

(* ================================================================== *)
(** ** Numeric coercion: [amount * 100] *)

Definition is_ascii_char (c : ascii) : bool := byte_of_ascii c <? 128.

(** White space of StringToNumber within ASCII: TAB, LF, VT, FF, CR, SP. *)
Definition is_str_ws (c : ascii) : bool :=
  let b := byte_of_ascii c in ((9 <=? b) && (b <=? 13)) || (b =? 32).

Fixpoint drop_while (p : ascii -> bool) (s : string) : string :=
  match s with
  | EmptyString => s
  | String c s' => if p c then drop_while p s' else s
  end.

Fixpoint rev_string (acc s : string) : string :=
  match s with
  | EmptyString => acc
  | String c s' => rev_string (String c acc) s'
  end.

Definition trim (s : string) : string :=
  rev_string "" (drop_while is_str_ws (rev_string "" (drop_while is_str_ws s))).

Definition radix_digit (radix : Z) (c : ascii) : option Z :=
  match hex_val c with
  | Some d => if d <? radix then Some d else None
  | None => None
  end.

(** Value of a non-empty run of digits in the given radix. *)
Fixpoint radix_val (radix acc : Z) (s : string) : option Z :=
  match s with
  | EmptyString => Some acc
  | String c s' =>
      match radix_digit radix c with
      | Some d => radix_val radix (radix * acc + d) s'
      | None => None
      end
  end.

Definition exponent_part (s : string) : bool :=
  match s with
  | EmptyString => true
  | String c r =>
      let b := byte_of_ascii c in
      if (b =? 101) || (b =? 69) then
        let ds :=
          match r with
          | String "+" r' => r'
          | String "-" r' => r'
          | _ => r
          end in
        negb (String.eqb ds "") && all_chars is_digit ds
      else false
  end.

(** StrUnsignedDecimalLiteral other than [Infinity]: digits with an
    optional fraction and exponent, or a fraction that starts with the
    point. *)
Definition decimal_literal (s : string) : bool :=
  let '(int, r1) := span is_digit s in
  match r1 with
  | String "." r =>
      let '(frac, r2) := span is_digit r in
      negb (String.eqb int "" && String.eqb frac "") && exponent_part r2
  | _ => negb (String.eqb int "") && exponent_part r1
  end.

Definition int_result (neg : bool) (z : Z) : option number :=
  if exact z then Some (Int (if neg then - z else z)) else None.

Definition non_decimal (radix : Z) (ds : string) : option number :=
  match ds with
  | EmptyString => Some NaN
  | _ =>
      match radix_val radix 0 ds with
      | Some z => int_result false z
      | None => Some NaN
      end
  end.

Definition signed_decimal (neg : bool) (u : string) : option number :=
  if String.eqb u "Infinity" then None
  else if negb (String.eqb u "") && all_chars is_digit u
       then int_result neg (digits_val 0 u)
  else if decimal_literal u then None
  else Some NaN.

(** StringToNumber on ASCII text. [None]: the string denotes a number
    outside the integers held exactly (a fraction, an exponent form, an
    infinity) or is not ASCII. *)
Definition string_to_number (s : string) : option number :=
  if negb (all_chars is_ascii_char s) then None
  else
    match trim s with
    | EmptyString => Some (Int 0)
    | String "0" (String "x" ds) | String "0" (String "X" ds) => non_decimal 16 ds
    | String "0" (String "o" ds) | String "0" (String "O" ds) => non_decimal 8 ds
    | String "0" (String "b" ds) | String "0" (String "B" ds) => non_decimal 2 ds
    | String "+" u => signed_decimal false u
    | String "-" u => signed_decimal true u
    | u => signed_decimal false u
    end.

(** ToNumber. [None] on arrays and objects, whose conversion goes through
    their [valueOf] and [toString]. *)
Definition to_number (v : jsval) : option number :=
  match v with
  | Undefined => Some NaN
  | Null => Some (Int 0)
  | Bool b => Some (Int (if b then 1 else 0))
  | Num n => Some n
  | Str s => string_to_number s
  | Arr _ | Obj _ => None
  end.

(** [a * b] on numbers; [None] when the product is not held exactly. *)
Definition times (a b : number) : option number :=
  match a, b with
  | Int x, Int y => if exact (x * y) then Some (Int (x * y)) else None
  | _, _ => Some NaN
  end.

(** [v * 100] *)
Definition times100 (v : jsval) : option number :=
  match to_number v with
  | Some n => times n (Int 100)
  | None => None
  end.

(** [amount * 100] of line 57 on a number as JavaScript holds it, an IEEE
    754 double: the product of the two doubles, rounded to the nearest
    double. A decimal literal such as [19.99] stands, here as in
    [JSON.parse], for the double nearest to it. *)
Definition minor_units (amount : float) : float :=
  PrimFloat.mul amount 100%float.

(* ================================================================== *)
(** ** Requests, responses and the environment *)

(** [req.body] after [express.json()] and [express.urlencoded()] (lines
    26-27): an object or an array; the empty object when no body was
    parsed. *)
Inductive parsed_body : Type :=
| BodyObj (props : list (string * jsval))
| BodyArr (items : list jsval).

Definition body_value (b : parsed_body) : jsval :=
  match b with
  | BodyObj props => Obj props
  | BodyArr items => Arr items
  end.

(** What a handler sends: [res.status(n).json(v)], [res.status(n).send(s)]
    or [res.redirect(url)]. [res.json(v)] alone is [Json 200 v]. *)
Inductive response : Type :=
| Json (code : Z) (v : jsval)
| Send (code : Z) (text : string)
| Redirect (url : string).

Definition status (r : response) : Z :=
  match r with
  | Json code _ => code
  | Send code _ => code
  | Redirect _ => 302
  end.

(** The object literal built at lines 55-63. *)
Record payment_data : Type := PaymentData {
  pd_email : jsval;
  pd_amount : number;
  pd_currency : jsval;
  pd_reference : jsval;
  pd_callback_url : string
}.

(** A call to the processor; [authorization] is the value of the
    Authorization header. *)
Inductive outbound : Type :=
| AxiosPost (url : string) (data : payment_data) (authorization : string)
| AxiosGet (url : string) (authorization : string).

(** The error a rejected axios promise carries: [error.message], and
    [error.response.data] when the processor answered. *)
Record axios_error : Type := AxiosError {
  err_message : string;
  err_response_data : option jsval
}.

(** The promise resolves with [response.data], or rejects (no answer, or
    a status outside 2xx). *)
Inductive axios_result : Type :=
| Resolved (data : jsval)
| Rejected (e : axios_error).

(** What a request reads from outside: [Date.now()], the text
    [Math.random().toString(36)] of its random draw, and the processor's
    answer to a call. *)
Record env : Type := Env {
  now : Z;
  random36 : string;
  processor : outbound -> axios_result
}.

Record outcome : Type := Outcome {
  calls : list outbound;
  resp : response
}.

(* ================================================================== *)
(** ** The proxy gateway (lines 43-156) *)

Section Gateway.

(** [PAYSTACK_SECRET_KEY], read at start-up. *)
Variable PAYSTACK_SECRET_KEY : string.

Definition bearer : string := "Bearer " ++ PAYSTACK_SECRET_KEY.

(** [error.message] of the TypeError thrown by reading property [k] of
    [undefined] or [null] (wording of V8). *)
Definition type_error_message (v : jsval) (k : string) : string :=
  "Cannot read properties of "
  ++ (match v with Null => "null" | _ => "undefined" end)
  ++ " (reading '" ++ k ++ "')".

(** What the catch blocks see. *)
Inductive caught : Type :=
| FromAxios (e : axios_error)
| FromTypeError (message : string).

(** [error.response?.data?.message || error.message] *)
Definition error_field (c : caught) : jsval :=
  match c with
  | FromAxios e =>
      js_or (match err_response_data e with
             | Some d => get_prop d "message"
             | None => Undefined
             end)
            (Str (err_message e))
  | FromTypeError m => Str m
  end.

(** The catch blocks: [res.status(500).json({status: false, message, error})]. *)
Definition failure (message : string) (c : caught) : response :=
  Json 500 (Obj [("status", Bool false);
                 ("message", Str message);
                 ("error", error_field c)]).

(** [response.data.k] for each [k] of [fields], inside the try block. *)
Definition read_fields (d : jsval) (fields : list string)
  : option (list (string * jsval)) :=
  match d with
  | Undefined | Null => None
  | _ => Some (map (fun k => (k, get_prop d k)) fields)
  end.

(** The part the three endpoints share: await the call, then answer
    [{status: true, ...}] or fall into the catch block. *)
Definition relay (message : string) (fields : list string) (r : axios_result)
  : response :=
  match r with
  | Resolved d =>
      match read_fields d fields with
      | Some props => Json 200 (Obj (("status", Bool true) :: props))
      | None =>
          failure message
            (FromTypeError (type_error_message d (hd "" fields)))
      end
  | Rejected e => failure message (FromAxios e)
  end.

(** [Math.random().toString(36).substr(2, 9)] *)
Definition random_suffix (e : env) : string := String.substring 2 9 (random36 e).

(** [`ref_${Date.now()}_${Math.random().toString(36).substr(2, 9)}`] *)
Definition generated_reference (e : env) : string :=
  "ref_" ++ dec (now e) ++ "_" ++ random_suffix e.

Record init_request : Type := InitRequest {
  ip_body : parsed_body;
  ip_protocol : string;
  ip_host : option string
}.

(** [`${req.protocol}://${req.get('host')}/payment-callback`] *)
Definition callback_url (req : init_request) : string :=
  ip_protocol req ++ "://"
  ++ (match ip_host req with Some h => h | None => "undefined" end)
  ++ "/payment-callback".

Definition validation_failure : response :=
  Json 400 (Obj [("status", Bool false);
                 ("message", Str "Email and amount are required")]).

(** POST /api/initialize-payment. [None]: [amount * 100] is outside the
    modelled numbers. *)
Definition initialize_payment (e : env) (req : init_request) : option outcome :=
  let body := body_value (ip_body req) in
  let email := get_prop body "email" in
  let amount := get_prop body "amount" in
  let currency :=
    match get_prop body "currency" with
    | Undefined => Str "NGN"
    | c => c
    end in
  let reference := get_prop body "reference" in
  if negb (truthy email) || negb (truthy amount) then
    Some (Outcome [] validation_failure)
  else
    match times100 amount with
    | None => None
    | Some kobo =>
        let paymentData :=
          PaymentData email kobo currency
            (js_or reference (Str (generated_reference e)))
            (callback_url req) in
        let call :=
          AxiosPost "https://api.paystack.co/transaction/initialize"
                    paymentData bearer in
        Some (Outcome [call]
                (relay "Failed to initialize payment" ["data"] (processor e call)))
    end.

(** GET /api/verify-payment/:reference *)
Definition verify_payment (e : env) (reference : string) : outcome :=
  let call :=
    AxiosGet ("https://api.paystack.co/transaction/verify/" ++ reference) bearer in
  Outcome [call] (relay "Failed to verify payment" ["data"] (processor e call)).

(** [const { page = 1, perPage = 10 } = req.query] and the URL of line 131.
    A parameter is absent ([None]) or a string. *)
Definition transactions_url (page perPage : option string) : string :=
  let page := match page with Some p => p | None => dec 1 end in
  let perPage := match perPage with Some p => p | None => dec 10 end in
  "https://api.paystack.co/transaction?page=" ++ page ++ "&perPage=" ++ perPage.

(** GET /api/transactions *)
Definition transactions (e : env) (page perPage : option string) : outcome :=
  let call := AxiosGet (transactions_url page perPage) bearer in
  Outcome [call]
    (relay "Failed to fetch transactions" ["data"; "meta"] (processor e call)).

End Gateway.

(* ================================================================== *)
(** ** The webhook (lines 158-186) *)

(** The three arms of the switch, by the line each one logs. *)
Inductive log_entry : Type :=
| PaymentSuccessful (data : jsval)
| PaymentFailed (data : jsval)
| UnhandledEvent (tag : jsval).

Inductive handler : Type :=
| SuccessHandler
| FailedHandler
| DefaultHandler.

Definition handler_of (l : log_entry) : handler :=
  match l with
  | PaymentSuccessful _ => SuccessHandler
  | PaymentFailed _ => FailedHandler
  | UnhandledEvent _ => DefaultHandler
  end.

(** [switch (event.event)]: strict equality with the two case labels. *)
Definition dispatch (event : jsval) : log_entry :=
  match get_prop event "event" with
  | Str tag =>
      if String.eqb tag "charge.success" then PaymentSuccessful (get_prop event "data")
      else if String.eqb tag "charge.failed" then PaymentFailed (get_prop event "data")
      else UnhandledEvent (Str tag)
  | tag => UnhandledEvent tag
  end.

Record webhook_request : Type := WebhookRequest {
  wh_body : parsed_body;
  wh_signature : option string   (* req.headers['x-paystack-signature'] *)
}.

(** [hash === req.headers['x-paystack-signature']] *)
Definition same_string (hash : string) (header : option string) : bool :=
  match header with
  | Some h => String.eqb hash h
  | None => false
  end.

(** The digest of lines 161-164. *)
Definition webhook_hash (secret : string) (req : webhook_request) : string :=
  hmac_sha256_hex secret (JSON_stringify (body_value (wh_body req))).

(** POST /api/webhook: what is logged, and the response. *)
Definition webhook (secret : string) (req : webhook_request)
  : list log_entry * response :=
  if same_string (webhook_hash secret req) (wh_signature req) then
    ([dispatch (body_value (wh_body req))], Send 200 "Webhook received")
  else
    ([], Send 400 "Invalid signature").

Definition as_parsed (v : jsval) : option parsed_body :=
  match v with
  | Obj props => Some (BodyObj props)
  | Arr items => Some (BodyArr items)
  | _ => None
  end.

(** A webhook delivery as it arrives: the raw body goes through
    [express.json()] before the route handler sees it. [None]: the
    middleware refused the body and the handler did not run. *)
Definition deliver_webhook (secret raw : string) (signature : option string)
  : option (list log_entry * response) :=
  match express_json raw with
  | Some v =>
      match as_parsed v with
      | Some b => Some (webhook secret (WebhookRequest b signature))
      | None => None
      end
  | None => None
  end.

(* ================================================================== *)
(** ** The callback redirect (lines 188-192) *)

(** [req.query.k]: absent, or a string. *)
Definition query_value (q : option string) : jsval :=
  match q with
  | Some s => Str s
  | None => Undefined
  end.

(** Template-literal text of a query value or [undefined]. *)
Definition text_of (v : jsval) : string :=
  match v with
  | Str s => s
  | _ => "undefined"
  end.

(** GET /payment-callback *)
Definition payment_callback (reference trxref : option string) : response :=
  Redirect ("/?reference="
            ++ text_of (js_or (query_value reference) (query_value trxref))
            ++ "&status=success").

(* ================================================================== *)
(** ** Routing and vocabulary of the properties *)

(** The three proxy endpoints behind one entry point. *)
Inductive endpoint : Type :=
| InitializePayment (req : init_request)
| VerifyPayment (reference : string)
| ListTransactions (page perPage : option string).

Definition run (key : string) (e : env) (ep : endpoint) : option outcome :=
  match ep with
  | InitializePayment req => initialize_payment key e req
  | VerifyPayment reference => Some (verify_payment key e reference)
  | ListTransactions page perPage => Some (transactions key e page perPage)
  end.

(** The [message] of each endpoint's catch block. *)
Definition failure_message (ep : endpoint) : string :=
  match ep with
  | InitializePayment _ => "Failed to initialize payment"
  | VerifyPayment _ => "Failed to verify payment"
  | ListTransactions _ _ => "Failed to fetch transactions"
  end.

(** The URL of the call of lines 65-74. *)
Definition initialize_url : string :=
  "https://api.paystack.co/transaction/initialize".

(** The values that line 48's [!email] and [!amount] take for absent:
    [undefined] (a missing field), [null], [false], the empty string, the
    number zero and NaN. Text is among them only when empty. *)
Definition falsy (v : jsval) : Prop :=
  v = Undefined \/ v = Null \/ v = Bool false
  \/ v = Str "" \/ v = Num (Int 0) \/ v = Num NaN.

(** The digits of [Number.prototype.toString(36)]. *)
Definition is_base36 (c : ascii) : bool :=
  let b := byte_of_ascii c in
  ((48 <=? b) && (b <=? 57)) || ((97 <=? b) && (b <=? 122)).

(** The characters other than [d]. *)
Definition not_char (d c : ascii) : bool := negb (Ascii.eqb c d).

Definition not_underscore : ascii -> bool := not_char "_".

(** Reading the query string of a URL that holds no fragment: the text
    after the first [?], cut at every [&], each piece cut at its first
    [=]. *)
Fixpoint split_on (sep : ascii) (s : string) : list string :=
  match s with
  | EmptyString => [EmptyString]
  | String c s' =>
      if Ascii.eqb c sep then EmptyString :: split_on sep s'
      else
        match split_on sep s' with
        | [] => [str1 c]
        | x :: l => String c x :: l
        end
  end.

Fixpoint split_first (sep : ascii) (s : string) : string * string :=
  match s with
  | EmptyString => (EmptyString, EmptyString)
  | String c s' =>
      if Ascii.eqb c sep then (EmptyString, s')
      else let '(a, b) := split_first sep s' in (String c a, b)
  end.

Definition query_params (url : string) : list (string * string) :=
  map (split_first "=") (split_on "&" (snd (split_first "?" url))).

(** What a request to [url] carries: a fragment, from the first [#] on,
    is not sent; the path ends at the first [?] of the rest and the query
    follows it. *)
Definition without_fragment (url : string) : string :=
  fst (split_first "#" url).

Definition request_path (url : string) : string :=
  fst (split_first "?" (without_fragment url)).

Definition request_query (url : string) : list (string * string) :=
  query_params (without_fragment url).

(** Sample data for the closed instances below. *)
Definition sample_secret : string := "sk_test_secret".

Definition sample_answer : jsval :=
  Obj [("status", Bool true);
       ("message", Str "Authorization URL created");
       ("data", Obj [("authorization_url", Str "https://checkout.paystack.com/0peioxfhpn");
                     ("access_code", Str "0peioxfhpn");
                     ("reference", Str "7PVGX8MEk85tgeEpVDtD")])].

Definition sample_env : env :=
  Env 1700000000000 "0.4fzyo82mvyr" (fun _ => Resolved sample_answer).

Definition sample_init (amount : jsval) : init_request :=
  InitRequest (BodyObj [("email", Str "customer@example.com"); ("amount", amount)])
              "https" (Some "shop.example").

(* ================================================================== *)
(** ** Start-up (lines 10-11, 36-41, 204-207) *)

(** [process.env.X]: unset, or a string. *)
Definition env_var (v : option string) : jsval := query_value v.

(** The process either exits before any route is registered, or goes on
    to call [app.listen(PORT)] with the secret it read. *)
Inductive boot : Type :=
| Exited (code : Z) (stderr : string)
| Listen (port : jsval) (key : string).

Definition startup (PORT_var KEY_var : option string) : boot :=
  let PORT := js_or (env_var PORT_var) (Num (Int 3000)) in
  let PAYSTACK_SECRET_KEY := env_var KEY_var in
  if negb (truthy PAYSTACK_SECRET_KEY) then
    Exited 1 "PAYSTACK_SECRET_KEY is required"
  else
    Listen PORT (text_of PAYSTACK_SECRET_KEY).

(* ================================================================== *)
(** ** Vocabulary of the further properties *)

Definition call_url (c : outbound) : string :=
  match c with
  | AxiosPost url _ _ => url
  | AxiosGet url _ => url
  end.

Definition call_authorization (c : outbound) : string :=
  match c with
  | AxiosPost _ _ authorization => authorization
  | AxiosGet _ authorization => authorization
  end.

(** The processor's base URL, shared by the three calls. *)
Definition processor_base : string := "https://api.paystack.co/transaction".

(** The digits of [digest('hex')]. *)
Definition is_lower_hex (c : ascii) : bool :=
  let b := byte_of_ascii c in
  ((48 <=? b) && (b <=? 57)) || ((97 <=? b) && (b <=? 102)).

Definition is_byte (b : Z) : Prop := 0 <= b < 256.

(* ================================================================== *)
(** ** Canonical values and printed texts *)

(** Where a value ends inside an array or an object, or at the end of the
    text: before a comma, a closing bracket or a closing brace. *)
Definition value_end (rest : string) : bool :=
  match rest with
  | EmptyString => true
  | String c _ =>
      let b := byte_of_ascii c in (b =? 44) || (b =? 93) || (b =? 125)
  end.

(** The text [JSON.stringify] prints for an array element, and the texts
    it prints for the properties of an object. *)
Definition elem_text (x : jsval) : string :=
  match serialize x with
  | Some s => s
  | None => "null"
  end.

Fixpoint member_texts (l : list (string * jsval)) : list string :=
  match l with
  | [] => []
  | (k, x) :: l' =>
      match serialize x with
      | Some s => (quote k ++ ":" ++ s) :: member_texts l'
      | None => member_texts l'
      end
  end.

(** Defining one more property, as the parser does member by member. *)
Definition define (acc : list (string * jsval)) (kv : string * jsval)
  : list (string * jsval) := set_prop (fst kv) (snd kv) acc.

(** The values [JSON.parse] can yield within the modelled texts: no
    [undefined] and no [NaN], integers held exactly, ASCII strings and
    keys, and in every object the properties in the order in which an
    object holds them (defining them one after the other yields the same
    list: no key twice, index keys first and ascending). *)
Fixpoint canonical (v : jsval) : Prop :=
  match v with
  | Undefined => False
  | Null => True
  | Bool _ => True
  | Num (Int z) => exact z = true
  | Num NaN => False
  | Str s => all_chars is_ascii_char s = true
  | Arr items =>
      (fix each (l : list jsval) : Prop :=
         match l with
         | [] => True
         | x :: l' => canonical x /\ each l'
         end) items
  | Obj props =>
      (fix each (l : list (string * jsval)) : Prop :=
         match l with
         | [] => True
         | (k, x) :: l' =>
             all_chars is_ascii_char k = true /\ canonical x /\ each l'
         end) props
      /\ fold_left define props [] = props
  end.

Fixpoint canonical_items (l : list jsval) : Prop :=
  match l with
  | [] => True
  | x :: l' => canonical x /\ canonical_items l'
  end.

Fixpoint canonical_members (l : list (string * jsval)) : Prop :=
  match l with
  | [] => True
  | (k, x) :: l' =>
      all_chars is_ascii_char k = true /\ canonical x /\ canonical_members l'
  end.

(** The first character of a printed value. *)
Definition opens_value (c : ascii) : Prop :=
  is_json_ws c = false /\ byte_of_ascii c <> 93 /\ byte_of_ascii c <> 125.

(** Parsing a printed value gives the value back, at fuel [f]: for one
    value, for the elements of an array, for the members of an object. *)
Definition round_trip_at (f : nat) : Prop :=
  (forall v rest,
      canonical v -> value_end rest = true ->
      (2 * String.length (elem_text v) <= f)%nat ->
      parse_value f (elem_text v ++ rest) = Some (v, rest))
  /\ (forall x items acc rest,
         canonical_items (x :: items) ->
         (2 * String.length (join "," (map elem_text (x :: items))) + 1 <= f)%nat ->
         parse_elements f (join "," (map elem_text (x :: items)) ++ String "]" rest) acc
         = Some (Arr (acc ++ x :: items), rest))
  /\ (forall kx props acc rest,
         canonical_members (kx :: props) ->
         (2 * String.length (join "," (member_texts (kx :: props))) + 1 <= f)%nat ->
         parse_members f (join "," (member_texts (kx :: props)) ++ String "}" rest) acc
         = Some (Obj (fold_left define (kx :: props) acc), rest)).

(* ================================================================== *)
(** * Properties *)

(** ** Known answers of the digest functions *)

(** FIPS 180-4 ("abc", the empty message, the two-block message) and
    RFC 4231 (test cases 1 and 2, and test case 6 for a key longer than a
    block). *)
Example sha256_constants :
  List.length Sha256.K = 64%nat
  /\ hd 0 Sha256.K = 0x428a2f98 /\ last Sha256.K 0 = 0xc67178f2
  /\ List.length Sha256.H0 = 8%nat
  /\ hd 0 Sha256.H0 = 0x6a09e667 /\ last Sha256.H0 0 = 0x5be0cd19.
Proof. vm_compute. repeat split. Qed.

Example sha256_abc :
  hex_of_bytes (Sha256.sha256 (bytes_of_string "abc"))
  = "ba7816bf8f01cfea414140de5dae2223b00361a396177a9cb410ff61f20015ad".
Proof. vm_compute. reflexivity. Qed.

Example sha256_empty :
  hex_of_bytes (Sha256.sha256 [])
  = "e3b0c44298fc1c149afbf4c8996fb92427ae41e4649b934ca495991b7852b855".
Proof. vm_compute. reflexivity. Qed.

Example sha256_two_blocks :
  hex_of_bytes (Sha256.sha256 (bytes_of_string
     "abcdbcdecdefdefgefghfghighijhijkijkljklmklmnlmnomnopnopq"))
  = "248d6a61d20638b8e5c026930c3e6039a33ce45964ff2167f6ecedd419db06c1".
Proof. vm_compute. reflexivity. Qed.

Example hmac_rfc4231_case2 :
  hmac_sha256_hex "Jefe" "what do ya want for nothing?"
  = "5bdcc146bf60754e6a042426089575c75a003f089d2739839dec58b964ec3843".
Proof. vm_compute. reflexivity. Qed.

Example hmac_rfc4231_case1 :
  hex_of_bytes (Sha256.hmac (repeat 0x0b 20) (bytes_of_string "Hi There"))
  = "b0344c61d8db38535ca8afceaf0bf12b881dc200c9833da726e9376c2e32cff7".
Proof. vm_compute. reflexivity. Qed.

Example hmac_rfc4231_case6 :
  hex_of_bytes (Sha256.hmac (repeat 0xaa 131)
     (bytes_of_string "Test Using Larger Than Block-Size Key - Hash Key First"))
  = "60e431591ee0b67f0d8a26aacbf5b77f8e0bc6213728c5140546040f0ee37f54".
Proof. vm_compute. reflexivity. Qed.


(** ** The platform functions on examples *)

(** Parsing then printing drops white space and the escape of the slash. *)
Example reserialize_whitespace :
  option_map JSON_stringify (JSON_parse (dq "{ 'b' : [1, 2 ,3], 'a' : '\/x' }"))
  = Some (dq "{'b':[1,2,3],'a':'/x'}").
Proof. vm_compute. reflexivity. Qed.

(** Index keys come first in ascending order; a repeated key keeps its
    place and takes the last value. *)
Example reserialize_key_order :
  option_map JSON_stringify (JSON_parse (dq "{'b':1,'10':2,'9':3,'b':4}"))
  = Some (dq "{'9':3,'10':2,'b':4}").
Proof. vm_compute. reflexivity. Qed.

Example reserialize_numbers_and_escapes :
  option_map JSON_stringify (JSON_parse (dq "{'a':-0,'t':'A\u000a'}"))
  = Some (dq "{'a':0,'t':'A\n'}").
Proof. vm_compute. reflexivity. Qed.

Example express_json_strict :
  express_json "12" = None
  /\ express_json "" = Some (Obj [])
  /\ express_json " [ ] " = Some (Arr [])
  /\ express_json (dq "{'a':1,}") = None.
Proof. vm_compute. repeat split. Qed.

Example string_to_number_examples :
  map string_to_number ["50"; " 50 "; ""; "-5"; "0x10"; "abc"; "12px"; "1e3"; "5.5"]
  = [Some (Int 50); Some (Int 50); Some (Int 0); Some (Int (-5)); Some (Int 16);
     Some NaN; Some NaN; None; None].
Proof. vm_compute. reflexivity. Qed.

Example initialize_payment_example :
  initialize_payment sample_secret sample_env (sample_init (Num (Int 50)))
  = Some (Outcome
            [AxiosPost initialize_url
               (PaymentData (Str "customer@example.com") (Int 5000) (Str "NGN")
                  (Str "ref_1700000000000_4fzyo82mv")
                  "https://shop.example/payment-callback")
               "Bearer sk_test_secret"]
            (Json 200 (Obj [("status", Bool true);
                            ("data", get_prop sample_answer "data")]))).
Proof. vm_compute. reflexivity. Qed.

(** ** Auxiliary facts *)

Ltac break_match :=
  match goal with
  | H : context [match ?x with _ => _ end] |- _ => destruct x eqn:?
  | |- context [match ?x with _ => _ end] => destruct x eqn:?
  end.

Lemma JSON_stringify_defined (v : jsval) :
  v <> Undefined -> serialize v = Some (JSON_stringify v).
Proof.
  unfold JSON_stringify. destruct v as [| |[|]|n|s|items|props];
    simpl; intros H; try reflexivity. contradiction.
Qed.

Lemma option_eq_dec_string (a b : option string) : {a = b} + {a <> b}.
Proof. decide equality. apply String.string_dec. Qed.

Lemma same_string_spec (hash : string) (header : option string) :
  same_string hash header = true <-> header = Some hash.
Proof.
  destruct header as [h|]; simpl.
  - rewrite String.eqb_eq. split; intros H; [subst | inversion H]; reflexivity.
  - split; discriminate.
Qed.

Lemma parse_members_obj (fuel : nat) :
  forall s acc v r,
    parse_members fuel s acc = Some (v, r) -> exists props, v = Obj props.
Proof.
  induction fuel as [|fuel IH]; intros s acc v r H; [discriminate|].
  cbn [parse_members] in H.
  repeat (break_match; try discriminate).
  - eapply IH; eassumption.
  - inversion H; eauto.
Qed.

Lemma parse_elements_arr (fuel : nat) :
  forall s acc v r,
    parse_elements fuel s acc = Some (v, r) -> exists items, v = Arr items.
Proof.
  induction fuel as [|fuel IH]; intros s acc v r H; [discriminate|].
  cbn [parse_elements] in H.
  repeat (break_match; try discriminate).
  - eapply IH; eassumption.
  - inversion H; eauto.
Qed.

(** In strict mode the middleware hands the route an object or an array. *)
Lemma express_json_parsed (raw : string) (v : jsval) :
  express_json raw = Some v -> exists b, as_parsed v = Some b /\ body_value b = v.
Proof.
  unfold express_json. intros H.
  destruct (102400 <? Z.of_nat (String.length raw)); [discriminate|].
  destruct raw as [|c0 raw0]; [inversion H; exists (BodyObj []); auto|].
  remember (String c0 raw0) as raw.
  destruct (peek raw) as [[b rest]|] eqn:Hpeek; [|discriminate].
  destruct ((b =? 123) || (b =? 91)) eqn:Hb; [|discriminate].
  unfold JSON_parse in H.
  destruct (parse_value _ raw) as [[w r]|] eqn:Hp; [|discriminate].
  assert (Hw : (exists props, w = Obj props) \/ (exists items, w = Arr items)).
  { clear H. destruct (2 * String.length raw + 2)%nat as [|fuel]; [discriminate|].
    cbn [parse_value] in Hp. unfold peek in Hpeek.
    destruct (skip_ws raw) as [|c t]; [discriminate|].
    inversion Hpeek; subst b rest.
    destruct (byte_of_ascii c =? 123) eqn:E1.
    - left. repeat (break_match; try discriminate).
      + inversion Hp; eauto.
      + eapply parse_members_obj; eassumption.
    - simpl in Hb. rewrite Hb in Hp. right.
      repeat (break_match; try discriminate).
      + inversion Hp; eauto.
      + eapply parse_elements_arr; eassumption. }
  destruct (skip_ws r); [|discriminate]. inversion H; subst w.
  destruct Hw as [[props ->]|[items ->]];
    [exists (BodyObj props)|exists (BodyArr items)]; auto.
Qed.

(** ** The webhook *)

Lemma webhook_accept (secret : string) (req : webhook_request) :
  wh_signature req = Some (webhook_hash secret req) ->
  webhook secret req
  = ([dispatch (body_value (wh_body req))], Send 200 "Webhook received").
Proof.
  intros H. unfold webhook.
  destruct (same_string _ _) eqn:E; [reflexivity|].
  apply same_string_spec in H. congruence.
Qed.

Lemma webhook_reject (secret : string) (req : webhook_request) :
  wh_signature req <> Some (webhook_hash secret req) ->
  webhook secret req = ([], Send 400 "Invalid signature").
Proof.
  intros H. unfold webhook.
  destruct (same_string _ _) eqn:E; [|reflexivity].
  apply same_string_spec in E. contradiction.
Qed.

(** C1, as stated, fails. A body signed by its sender over the raw bytes
    [{"event": "charge.success"}] carries the header the claim asks for and
    is answered 400, because the handler hashes the re-serialized body,
    which has no space after the colon. Conversely a body whose white space
    was changed after signing is answered 200 with the signature of the
    original bytes. *)
Lemma webhook_raw_bytes_counterexample :
  (let signed := dq "{'event': 'charge.success'}" in
   deliver_webhook sample_secret signed
     (Some (hmac_sha256_hex sample_secret signed))
   = Some ([], Send 400 "Invalid signature"))
  /\
  (let signed := dq "{'event':'charge.success'}" in
   let mutated := dq "{ 'event' : 'charge.success' }" in
   mutated <> signed
   /\ deliver_webhook sample_secret mutated
        (Some (hmac_sha256_hex sample_secret signed))
      = Some ([PaymentSuccessful Undefined], Send 200 "Webhook received")).
Proof.
  split; [vm_compute; reflexivity|].
  split; [discriminate|vm_compute; reflexivity].
Qed.

(** C1, amended. For every delivery whose raw body the JSON middleware
    parses to a value [v], the endpoint answers 200 exactly when the
    signature header equals the hex HMAC-SHA256, keyed by the secret, of
    [JSON.stringify(v)], the re-serialization of the parsed body, and
    answers 400 otherwise. When the raw bytes are their own
    re-serialization this is the digest of the raw bytes. *)
Theorem webhook_accepts_reserialized_digest
    (secret raw : string) (signature : option string) (v : jsval) :
  express_json raw = Some v ->
  exists out,
    deliver_webhook secret raw signature = Some out
    /\ (snd out = Send 200 "Webhook received"
        <-> signature = Some (hmac_sha256_hex secret (JSON_stringify v)))
    /\ (snd out = Send 400 "Invalid signature"
        <-> signature <> Some (hmac_sha256_hex secret (JSON_stringify v)))
    /\ (JSON_stringify v = raw ->
        (status (snd out) = 200
         <-> signature = Some (hmac_sha256_hex secret raw))).
Proof.
  intros Hparse.
  destruct (express_json_parsed raw v Hparse) as (b & Hb & Hv).
  unfold deliver_webhook. rewrite Hparse, Hb.
  set (req := WebhookRequest b signature).
  assert (Hhash : webhook_hash secret req
                  = hmac_sha256_hex secret (JSON_stringify v)).
  { unfold webhook_hash, req; simpl. now rewrite Hv. }
  eexists; split; [reflexivity|].
  rewrite <- Hhash.
  destruct (option_eq_dec_string signature (Some (webhook_hash secret req)))
    as [Heq|Hne].
  - rewrite (webhook_accept secret req Heq); simpl.
    split; [tauto|]. split; [split; [discriminate|contradiction]|].
    intros Hraw. split; intros _; [|reflexivity].
    now rewrite Heq, Hhash, Hraw.
  - rewrite (webhook_reject secret req Hne); simpl.
    split; [split; [discriminate|contradiction]|]. split; [tauto|].
    intros Hraw. split; [discriminate|].
    intros Hsig. exfalso. apply Hne. now rewrite Hhash, Hraw.
Qed.

Lemma webhook_accepts_reserialized_digest_witness :
  let raw := dq "{'event':'charge.success','data':{'id':7}}" in
  let v := Obj [("event", Str "charge.success");
                ("data", Obj [("id", Num (Int 7))])] in
  let signature := Some (hmac_sha256_hex sample_secret raw) in
  express_json raw = Some v
  /\ JSON_stringify v = raw
  /\ exists out,
       deliver_webhook sample_secret raw signature = Some out
       /\ status (snd out) = 200.
Proof.
  intros raw v signature.
  assert (Hparse : express_json raw = Some v) by (vm_compute; reflexivity).
  assert (Hraw : JSON_stringify v = raw) by (vm_compute; reflexivity).
  split; [exact Hparse|]. split; [exact Hraw|].
  destruct (webhook_accepts_reserialized_digest sample_secret raw signature v Hparse)
    as (out & Hout & _ & _ & Hiff).
  exists out. split; [exact Hout|].
  apply (Hiff Hraw). reflexivity.
Defined.

(** C2. A request whose signature header differs from the digest the
    handler computes, or has no such header, is answered 400 with the text
    [Invalid signature], and no arm of the switch runs: nothing is logged. *)
Theorem webhook_mismatch_rejected (secret : string) (req : webhook_request) :
  wh_signature req <> Some (webhook_hash secret req) ->
  webhook secret req = ([], Send 400 "Invalid signature")
  /\ status (snd (webhook secret req)) = 400
  /\ (forall entry, ~ In entry (fst (webhook secret req))).
Proof.
  intros H. rewrite (webhook_reject secret req H). simpl. auto.
Qed.

Lemma webhook_mismatch_rejected_witness :
  let req := WebhookRequest (BodyObj [("event", Str "charge.success")]) None in
  wh_signature req <> Some (webhook_hash sample_secret req)
  /\ webhook sample_secret req = ([], Send 400 "Invalid signature")
  /\ status (snd (webhook sample_secret req)) = 400
  /\ (forall entry, ~ In entry (fst (webhook sample_secret req))).
Proof.
  intros req.
  assert (H : wh_signature req <> Some (webhook_hash sample_secret req))
    by (intros E; discriminate E).
  split; [exact H|].
  exact (webhook_mismatch_rejected sample_secret req H).
Defined.

(** C3. A verified event is dispatched on its [event] field by exact
    match: [charge.success] reaches the success arm, [charge.failed] the
    failed arm, anything else the default arm; each time the answer is 200
    with the text [Webhook received]. *)
Theorem webhook_dispatch_by_tag (secret : string) (req : webhook_request) :
  wh_signature req = Some (webhook_hash secret req) ->
  let event := body_value (wh_body req) in
  let tag := get_prop event "event" in
  exists entry,
    webhook secret req = ([entry], Send 200 "Webhook received")
    /\ (handler_of entry = SuccessHandler <-> tag = Str "charge.success")
    /\ (handler_of entry = FailedHandler <-> tag = Str "charge.failed")
    /\ (handler_of entry = DefaultHandler
        <-> tag <> Str "charge.success" /\ tag <> Str "charge.failed").
Proof.
  intros H event tag.
  exists (dispatch event). split; [exact (webhook_accept secret req H)|].
  unfold dispatch. fold tag.
  destruct tag as [| |b|n|s|items|props]; simpl;
    try (repeat split; intros; try discriminate; try tauto;
         match goal with H : _ /\ _ |- _ => destruct H end; congruence).
  destruct (String.eqb s "charge.success") eqn:E1.
  - apply String.eqb_eq in E1; subst s; simpl.
    repeat split; intros; try discriminate; try reflexivity; tauto.
  - destruct (String.eqb s "charge.failed") eqn:E2.
    + apply String.eqb_eq in E2; subst s; simpl.
      repeat split; intros; try discriminate; try reflexivity; tauto.
    + apply String.eqb_neq in E1, E2. simpl.
      repeat split; intros; try discriminate; try reflexivity;
        try congruence.
Qed.

Lemma webhook_dispatch_by_tag_witness :
  let req :=
    WebhookRequest (BodyObj [("event", Str "totally.unknown")])
      (Some "6c2dd2130219703f6b62c29cced0c5daa636aa3d21418e7843edfabe43e01304") in
  wh_signature req = Some (webhook_hash sample_secret req)
  /\ exists entry,
       webhook sample_secret req = ([entry], Send 200 "Webhook received")
       /\ handler_of entry = DefaultHandler.
Proof.
  intros req.
  assert (H : wh_signature req = Some (webhook_hash sample_secret req))
    by (vm_compute; reflexivity).
  split; [exact H|].
  destruct (webhook_dispatch_by_tag sample_secret req H)
    as (entry & Hw & _ & _ & Hd).
  exists entry. split; [exact Hw|].
  apply Hd. split; discriminate.
Defined.

(** ** InitializePayment: validation and conversion *)

(** [falsy] lists the values whose truthiness is [false]. *)
Lemma truthy_false_iff (v : jsval) : truthy v = false <-> falsy v.
Proof.
  unfold falsy. split.
  - destruct v as [| |[|]|[z|]|s|items|props]; simpl; intros H;
      try discriminate H; auto 7.
    + apply negb_false_iff, Z.eqb_eq in H. subst z. auto 7.
    + apply negb_false_iff, String.eqb_eq in H. subst s. auto 7.
  - intros [-> | [-> | [-> | [-> | [-> | ->]]]]]; reflexivity.
Qed.

(** The two paths of the handler once [amount * 100] is computed. *)
Lemma initialize_rejects (key : string) (e : env) (req : init_request) :
  let body := body_value (ip_body req) in
  truthy (get_prop body "email") = false \/ truthy (get_prop body "amount") = false ->
  initialize_payment key e req = Some (Outcome [] validation_failure).
Proof.
  intros body H. unfold initialize_payment. fold body.
  destruct H as [-> | ->]; simpl; [reflexivity|].
  now rewrite orb_true_r.
Qed.

Lemma initialize_forwards (key : string) (e : env) (req : init_request) (kobo : number) :
  let body := body_value (ip_body req) in
  truthy (get_prop body "email") = true ->
  truthy (get_prop body "amount") = true ->
  times100 (get_prop body "amount") = Some kobo ->
  exists d,
    initialize_payment key e req
    = Some (Outcome [AxiosPost initialize_url d (bearer key)]
              (relay "Failed to initialize payment" ["data"]
                     (processor e (AxiosPost initialize_url d (bearer key)))))
    /\ pd_email d = get_prop body "email"
    /\ pd_amount d = kobo
    /\ pd_reference d
       = js_or (get_prop body "reference") (Str (generated_reference e)).
Proof.
  intros body He Ha Hk. unfold initialize_payment. fold body.
  rewrite He, Ha, Hk. simpl.
  eexists. split; [reflexivity|]. simpl. auto.
Qed.


(** The product of line 57 on doubles: exact on a whole amount such as 25,
    rounded on a fraction, and rounded on a whole amount whose hundredfold
    lies above [2^53] and is no double. *)
Example minor_units_examples :
  minor_units 25%float = 2500%float
  /\ minor_units 1.1%float = 110.00000000000001%float
  /\ minor_units 0.07%float = 7.000000000000001%float
  /\ minor_units 400000000000001%float = 40000000000000096%float.
Proof. repeat split; vm_compute; reflexivity. Qed.




(** C5, as stated, fails for a zero amount given as text: ["0"] is a
    non-empty string, which line 48 takes for present. The request is not
    answered 400: one call is made, with amount 0, and its answer is
    relayed with status 200. *)
Lemma zero_text_amount_counterexample :
  initialize_payment sample_secret sample_env (sample_init (Str "0"))
  = Some (Outcome
            [AxiosPost initialize_url
               (PaymentData (Str "customer@example.com") (Int 0) (Str "NGN")
                  (Str "ref_1700000000000_4fzyo82mv")
                  "https://shop.example/payment-callback")
               "Bearer sk_test_secret"]
            (Json 200 (Obj [("status", Bool true);
                            ("data", get_prop sample_answer "data")]))).
Proof. vm_compute. reflexivity. Qed.

(** C5, amended. When the email or the amount is missing, null, false, the
    empty string, the number zero or NaN, the answer is 400 with
    [{status: false, message}] and no call to the processor is made. A zero
    amount given as non-empty text is not among these: with a truthy email
    it is sent to the processor, as 0, in the one call the handler makes. *)
Theorem initialize_requires_truthy_fields
    (key : string) (e : env) (req : init_request) :
  let body := body_value (ip_body req) in
  let email := get_prop body "email" in
  let amount := get_prop body "amount" in
  (falsy email \/ falsy amount ->
   initialize_payment key e req
   = Some (Outcome []
             (Json 400 (Obj [("status", Bool false);
                             ("message", Str "Email and amount are required")]))))
  /\ (truthy email = true ->
      forall s, amount = Str s -> s <> "" -> string_to_number s = Some (Int 0) ->
      exists d,
        initialize_payment key e req
        = Some (Outcome [AxiosPost initialize_url d (bearer key)]
                  (relay "Failed to initialize payment" ["data"]
                         (processor e (AxiosPost initialize_url d (bearer key)))))
        /\ pd_amount d = Int 0).
Proof.
  cbv zeta. split.
  - intros H. apply initialize_rejects. cbv zeta.
    destruct H as [H|H]; [left|right]; now apply truthy_false_iff.
  - intros He s Es Hs Hz.
    destruct (initialize_forwards key e req (Int 0)) as (d & Hrun & _ & Hd & _).
    + exact He.
    + cbv zeta. rewrite Es. simpl. apply String.eqb_neq in Hs. now rewrite Hs.
    + cbv zeta. rewrite Es. unfold times100. cbn [to_number]. rewrite Hz.
      reflexivity.
    + exists d. split; [exact Hrun|exact Hd].
Qed.

Lemma initialize_requires_truthy_fields_witness :
  let missing := InitRequest (BodyObj [("email", Str "customer@example.com")])
                             "https" (Some "shop.example") in
  let zero := sample_init (Str "0") in
  (falsy (get_prop (body_value (ip_body missing)) "email")
   \/ falsy (get_prop (body_value (ip_body missing)) "amount"))
  /\ initialize_payment sample_secret sample_env missing
     = Some (Outcome []
               (Json 400 (Obj [("status", Bool false);
                               ("message", Str "Email and amount are required")])))
  /\ exists d,
       initialize_payment sample_secret sample_env zero
       = Some (Outcome [AxiosPost initialize_url d (bearer sample_secret)]
                 (relay "Failed to initialize payment" ["data"]
                    (processor sample_env
                       (AxiosPost initialize_url d (bearer sample_secret)))))
       /\ pd_amount d = Int 0.
Proof.
  intros missing zero.
  assert (H : falsy (get_prop (body_value (ip_body missing)) "email")
              \/ falsy (get_prop (body_value (ip_body missing)) "amount"))
    by (right; left; reflexivity).
  split; [exact H|].
  split.
  - exact (proj1 (initialize_requires_truthy_fields sample_secret sample_env missing) H).
  - apply (proj2 (initialize_requires_truthy_fields sample_secret sample_env zero)
             eq_refl "0").
    + reflexivity.
    + discriminate.
    + vm_compute. reflexivity.
Defined.

(** A request the handler answers went one of the two ways. *)
Lemma initialize_cases (key : string) (e : env) (req : init_request) (out : outcome) :
  initialize_payment key e req = Some out ->
  let body := body_value (ip_body req) in
  (truthy (get_prop body "email") && truthy (get_prop body "amount") = false
   /\ out = Outcome [] validation_failure)
  \/ (truthy (get_prop body "email") = true
      /\ truthy (get_prop body "amount") = true
      /\ exists d,
           times100 (get_prop body "amount") = Some (pd_amount d)
           /\ out = Outcome [AxiosPost initialize_url d (bearer key)]
                      (relay "Failed to initialize payment" ["data"]
                         (processor e (AxiosPost initialize_url d (bearer key))))).
Proof.
  intros H body.
  destruct (truthy (get_prop body "email")) eqn:He;
    destruct (truthy (get_prop body "amount")) eqn:Ha;
    try (left; split; [reflexivity|];
         rewrite initialize_rejects in H by (fold body; auto);
         now inversion H).
  right. repeat split.
  destruct (times100 (get_prop body "amount")) as [kobo|] eqn:Hk.
  - destruct (initialize_forwards key e req kobo He Ha Hk) as (d & Hrun & _ & Hd & _).
    exists d. rewrite Hd. split; [reflexivity|]. congruence.
  - unfold initialize_payment in H. fold body in H.
    rewrite He, Ha, Hk in H. discriminate.
Qed.

(** C6, as stated, fails: an amount of -5 and an amount of ["abc"] pass the
    check of line 48 and are sent to the processor, as -500 and as NaN. *)
Lemma invalid_amount_forwarded_counterexample :
  initialize_payment sample_secret sample_env (sample_init (Num (Int (-5))))
  = Some (Outcome
            [AxiosPost initialize_url
               (PaymentData (Str "customer@example.com") (Int (-500)) (Str "NGN")
                  (Str "ref_1700000000000_4fzyo82mv")
                  "https://shop.example/payment-callback")
               "Bearer sk_test_secret"]
            (Json 200 (Obj [("status", Bool true);
                            ("data", get_prop sample_answer "data")])))
  /\
  initialize_payment sample_secret sample_env (sample_init (Str "abc"))
  = Some (Outcome
            [AxiosPost initialize_url
               (PaymentData (Str "customer@example.com") NaN (Str "NGN")
                  (Str "ref_1700000000000_4fzyo82mv")
                  "https://shop.example/payment-callback")
               "Bearer sk_test_secret"]
            (Json 200 (Obj [("status", Bool true);
                            ("data", get_prop sample_answer "data")]))).
Proof. split; vm_compute; reflexivity. Qed.

(** C6, amended. The check at the gateway is one of truthiness: a request
    is answered 400 with [{status: false, message}], without a call to the
    processor, exactly when its email or its amount is falsy. A truthy
    amount that is not a positive number passes: a negative number [a] is
    forwarded as [a * 100], a non-empty string that denotes no number is
    forwarded as NaN. *)
Theorem initialize_validation_is_truthiness
    (key : string) (e : env) (req : init_request) (out : outcome) :
  initialize_payment key e req = Some out ->
  let body := body_value (ip_body req) in
  let email := get_prop body "email" in
  let amount := get_prop body "amount" in
  (out = Outcome []
           (Json 400 (Obj [("status", Bool false);
                           ("message", Str "Email and amount are required")]))
   <-> truthy email = false \/ truthy amount = false)
  /\ (truthy email = true ->
      forall a, amount = Num (Int a) -> a < 0 ->
      exists d,
        calls out = [AxiosPost initialize_url d (bearer key)]
        /\ pd_amount d = Int (a * 100))
  /\ (truthy email = true ->
      forall s, amount = Str s -> s <> "" -> string_to_number s = Some NaN ->
      exists d,
        calls out = [AxiosPost initialize_url d (bearer key)]
        /\ pd_amount d = NaN).
Proof.
  intros H. cbv zeta.
  pose proof (initialize_cases key e req out H) as C. cbv zeta in C.
  destruct C as [[Hf ->]|(He & Ha & d & Hk & ->)].
  - apply andb_false_iff in Hf.
    split; [split; [intros _; exact Hf|reflexivity]|].
    split.
    + intros He a Ea Hneg. destruct Hf as [Hf|Hf]; [congruence|].
      rewrite Ea in Hf. simpl in Hf. destruct (Z.eqb_spec a 0); [lia|discriminate].
    + intros He s Es Hs _. destruct Hf as [Hf|Hf]; [congruence|].
      rewrite Es in Hf. simpl in Hf. apply String.eqb_neq in Hs.
      rewrite Hs in Hf. discriminate.
  - split; [split; [discriminate|intros [E|E]; congruence]|].
    split.
    + intros _ a Ea Hneg. exists d. split; [reflexivity|].
      rewrite Ea in Hk. unfold times100 in Hk. cbn [to_number times] in Hk.
      destruct (exact (a * 100)); inversion Hk. reflexivity.
    + intros _ s Es _ Hnan. exists d. split; [reflexivity|].
      rewrite Es in Hk. unfold times100 in Hk. cbn [to_number] in Hk.
      rewrite Hnan in Hk. simpl in Hk. inversion Hk. reflexivity.
Qed.

Lemma initialize_validation_is_truthiness_witness :
  let req := sample_init (Num (Int (-5))) in
  let d := PaymentData (Str "customer@example.com") (Int (-500)) (Str "NGN")
             (Str "ref_1700000000000_4fzyo82mv")
             "https://shop.example/payment-callback" in
  let out := Outcome [AxiosPost initialize_url d "Bearer sk_test_secret"]
               (Json 200 (Obj [("status", Bool true);
                               ("data", get_prop sample_answer "data")])) in
  initialize_payment sample_secret sample_env req = Some out
  /\ (out = Outcome []
              (Json 400 (Obj [("status", Bool false);
                              ("message", Str "Email and amount are required")]))
      <-> truthy (Str "customer@example.com") = false
          \/ truthy (Num (Int (-5))) = false)
  /\ exists d',
       calls out = [AxiosPost initialize_url d' (bearer sample_secret)]
       /\ pd_amount d' = Int (-5 * 100).
Proof.
  intros req d out.
  assert (Hrun : initialize_payment sample_secret sample_env req = Some out)
    by (vm_compute; reflexivity).
  split; [exact Hrun|].
  destruct (initialize_validation_is_truthiness sample_secret sample_env req out Hrun)
    as (Hiff & Hneg & _).
  split; [exact Hiff|].
  apply Hneg; [reflexivity|reflexivity|lia].
Defined.

(** ** Generated references *)

Lemma substring_length (s : string) :
  forall n m, String.length (String.substring n m s) = Nat.min m (String.length s - n).
Proof.
  induction s as [|c s IH]; intros [|n] [|m]; simpl; try reflexivity.
  - now rewrite IH, Nat.sub_0_r.
  - apply IH.
  - apply IH.
Qed.

Lemma all_chars_substring (p : ascii -> bool) (s : string) :
  all_chars p s = true -> forall m, all_chars p (String.substring 0 m s) = true.
Proof.
  induction s as [|c s IH]; intros H [|m]; simpl; try reflexivity.
  simpl in H. apply andb_true_iff in H as [Hc Hs].
  rewrite Hc. simpl. now apply IH.
Qed.

Lemma uint_digits (d : Decimal.uint) :
  all_chars not_underscore (NilEmpty.string_of_uint d) = true.
Proof. induction d; simpl; auto. Qed.

Lemma dec_digits (z : Z) : all_chars not_underscore (dec z) = true.
Proof.
  unfold dec. destruct (Z.to_int z); simpl; apply uint_digits.
Qed.

Lemma dec_inj (x y : Z) : dec x = dec y -> x = y.
Proof.
  unfold dec. intros H.
  assert (E : Some (Z.to_int x) = Some (Z.to_int y)).
  { rewrite <- (NilEmpty.isi (Z.to_int x)), <- (NilEmpty.isi (Z.to_int y)).
    now rewrite H. }
  inversion E as [E']. apply (f_equal Z.of_int) in E'.
  now rewrite !DecimalZ.of_to in E'.
Qed.

(** Text before the first underscore determines the cut. *)
Lemma cut_at_underscore (a b s t : string) :
  all_chars not_underscore a = true ->
  all_chars not_underscore b = true ->
  a ++ String "_" s = b ++ String "_" t -> a = b /\ s = t.
Proof.
  revert b. induction a as [|c a IH]; intros [|c' b] Ha Hb H; simpl in *.
  - inversion H. auto.
  - inversion H; subst c'. discriminate.
  - inversion H; subst c. discriminate.
  - apply andb_true_iff in Ha as [_ Ha]. apply andb_true_iff in Hb as [_ Hb].
    inversion H; subst c'. destruct (IH b Ha Hb) as [-> ->]; auto.
Qed.

Lemma generated_reference_inj (e e' : env) :
  generated_reference e' = generated_reference e
  <-> now e' = now e /\ random_suffix e' = random_suffix e.
Proof.
  unfold generated_reference. split.
  - intros H. simpl in H. inversion H as [H'].
    apply cut_at_underscore in H'; try apply dec_digits.
    destruct H' as [Hd Hs]. split; [now apply dec_inj|exact Hs].
  - intros [-> ->]. reflexivity.
Qed.

(** C7, as stated, fails. When [Math.random()] returns 0.5 its base-36
    text is ["0.i"] and the generated suffix has one character, not nine;
    and two calls that read the same clock value and the same random text
    generate the same reference. *)
Lemma generated_reference_counterexample :
  let first := Env 1700000000000 "0.i" (processor sample_env) in
  let second :=
    Env 1700000000000 "0.i" (fun _ => Rejected (AxiosError "socket hang up" None)) in
  initialize_payment sample_secret first (sample_init (Num (Int 50)))
  = Some (Outcome
            [AxiosPost initialize_url
               (PaymentData (Str "customer@example.com") (Int 5000) (Str "NGN")
                  (Str "ref_1700000000000_i")
                  "https://shop.example/payment-callback")
               "Bearer sk_test_secret"]
            (Json 200 (Obj [("status", Bool true);
                            ("data", get_prop sample_answer "data")])))
  /\ String.length (random_suffix first) = 1%nat
  /\ generated_reference first = generated_reference second.
Proof. repeat split; vm_compute; reflexivity. Qed.

(** C7, amended. With no reference from the client (an absent or falsy
    one), the reference sent is [ref_<millis>_<suffix>], where [<millis>]
    is the decimal text of [Date.now()] and [<suffix>] is what follows the
    first two characters of [Math.random().toString(36)], cut at nine
    characters: at most nine base-36 digits, exactly nine when that text
    has eleven characters or more. Two generated references are equal
    exactly when both the clock values and the suffixes are. *)
Theorem generated_reference_shape
    (key : string) (e : env) (req : init_request) (out : outcome) :
  initialize_payment key e req = Some out ->
  let body := body_value (ip_body req) in
  truthy (get_prop body "email") = true ->
  truthy (get_prop body "amount") = true ->
  truthy (get_prop body "reference") = false ->
  exists d,
    calls out = [AxiosPost initialize_url d (bearer key)]
    /\ pd_reference d = Str ("ref_" ++ dec (now e) ++ "_" ++ random_suffix e)
    /\ random_suffix e = String.substring 2 9 (random36 e)
    /\ (String.length (random_suffix e) <= 9)%nat
    /\ ((11 <= String.length (random36 e))%nat ->
        String.length (random_suffix e) = 9%nat)
    /\ (forall ds, random36 e = "0." ++ ds -> all_chars is_base36 ds = true ->
        all_chars is_base36 (random_suffix e) = true)
    /\ (forall e', generated_reference e' = generated_reference e
                   <-> now e' = now e /\ random_suffix e' = random_suffix e).
Proof.
  intros Hrun. cbv zeta. intros He Ha Hr.
  destruct (times100 (get_prop (body_value (ip_body req)) "amount")) as [kobo|] eqn:Hk.
  - destruct (initialize_forwards key e req kobo He Ha Hk) as (d & Hrun' & _ & _ & Hd).
    rewrite Hrun' in Hrun. inversion Hrun; subst out; clear Hrun.
    exists d. split; [reflexivity|].
    split; [rewrite Hd; unfold js_or; now rewrite Hr|].
    split; [reflexivity|].
    unfold random_suffix. rewrite substring_length.
    split; [lia|]. split; [lia|].
    split; [|intros e'; apply generated_reference_inj].
    intros ds -> Hds. simpl. now apply all_chars_substring.
  - unfold initialize_payment in Hrun. rewrite He, Ha, Hk in Hrun. discriminate.
Qed.

Lemma generated_reference_shape_witness :
  let req := sample_init (Num (Int 50)) in
  let body := body_value (ip_body req) in
  let d := PaymentData (Str "customer@example.com") (Int 5000) (Str "NGN")
             (Str "ref_1700000000000_4fzyo82mv")
             "https://shop.example/payment-callback" in
  let out := Outcome [AxiosPost initialize_url d "Bearer sk_test_secret"]
               (Json 200 (Obj [("status", Bool true);
                               ("data", get_prop sample_answer "data")])) in
  initialize_payment sample_secret sample_env req = Some out
  /\ truthy (get_prop body "email") = true
  /\ truthy (get_prop body "amount") = true
  /\ truthy (get_prop body "reference") = false
  /\ exists d',
       calls out = [AxiosPost initialize_url d' (bearer sample_secret)]
       /\ pd_reference d'
          = Str ("ref_" ++ dec (now sample_env) ++ "_" ++ random_suffix sample_env)
       /\ String.length (random_suffix sample_env) = 9%nat.
Proof.
  intros req body d out.
  assert (Hrun : initialize_payment sample_secret sample_env req = Some out)
    by (vm_compute; reflexivity).
  assert (He : truthy (get_prop body "email") = true) by reflexivity.
  assert (Ha : truthy (get_prop body "amount") = true) by reflexivity.
  assert (Hr : truthy (get_prop body "reference") = false) by reflexivity.
  repeat (split; [assumption|]).
  destruct (generated_reference_shape sample_secret sample_env req out Hrun He Ha Hr)
    as (d' & Hc & Href & _ & _ & Hlen & _).
  exists d'. split; [exact Hc|]. split; [exact Href|].
  apply Hlen. vm_compute. repeat constructor.
Defined.

(** ** Upstream failures *)

Lemma run_calls (key : string) (e : env) (ep : endpoint) (out : outcome) (c : outbound) :
  run key e ep = Some out -> In c (calls out) ->
  resp out = relay (failure_message ep)
                   (match ep with ListTransactions _ _ => ["data"; "meta"] | _ => ["data"] end)
                   (processor e c).
Proof.
  destruct ep as [req|reference|page perPage]; simpl; intros H Hin.
  - pose proof (initialize_cases key e req out H) as C. cbv zeta in C.
    destruct C as [[_ ->]|(_ & _ & d & _ & ->)]; simpl in Hin.
    + contradiction.
    + destruct Hin as [<-|[]]. reflexivity.
  - inversion H; subst out. simpl in Hin |- *. destruct Hin as [<-|[]]. reflexivity.
  - inversion H; subst out. simpl in Hin |- *. destruct Hin as [<-|[]]. reflexivity.
Qed.

(** VerifyPayment and ListTransactions always answer, after exactly one
    call; InitializePayment answers whenever [amount * 100] is a modelled
    number, after at most one call. No endpoint retries. *)
Lemma proxy_endpoints_answer (key : string) (e : env) (ep : endpoint) :
  (forall out, run key e ep = Some out -> (List.length (calls out) <= 1)%nat)
  /\ match ep with
     | InitializePayment req =>
         times100 (get_prop (body_value (ip_body req)) "amount") <> None ->
         exists out, run key e ep = Some out
     | _ => exists out c, run key e ep = Some out /\ calls out = [c]
     end.
Proof.
  split.
  - destruct ep as [req|reference|page perPage]; simpl; intros out H.
    + pose proof (initialize_cases key e req out H) as C. cbv zeta in C.
      destruct C as [[_ ->]|(_ & _ & d & _ & ->)]; simpl; lia.
    + inversion H; simpl; lia.
    + inversion H; simpl; lia.
  - destruct ep as [req|reference|page perPage]; simpl.
    + intros Hk. unfold initialize_payment.
      destruct (negb _ || negb _); [eexists; reflexivity|].
      destruct (times100 _); [eexists; reflexivity|contradiction].
    + do 2 eexists. split; reflexivity.
    + do 2 eexists. split; reflexivity.
Qed.

(** C8, as stated, fails for a malformed answer: when the processor
    answers 2xx with a body that is not JSON, axios resolves with the text
    and the endpoint answers 200 with [{status: true}] and no data. *)
Lemma malformed_answer_counterexample :
  verify_payment sample_secret
    (Env 1700000000000 "0.4fzyo82mvyr"
         (fun _ => Resolved (Str "<html>Bad Gateway</html>")))
    "7PVGX8MEk85tgeEpVDtD"
  = Outcome
      [AxiosGet "https://api.paystack.co/transaction/verify/7PVGX8MEk85tgeEpVDtD"
                "Bearer sk_test_secret"]
      (Json 200 (Obj [("status", Bool true); ("data", Undefined)])).
Proof. vm_compute. reflexivity. Qed.

(** C8, amended. Whenever the call to the processor is rejected (no
    answer, or a status outside 2xx), each of the three endpoints answers
    500 with [{status: false, message, error}]: [message] is the
    endpoint's own, [error] is the [message] of the processor's answer
    when there is a truthy one and the message of the error otherwise. The
    handler always answers. *)
Theorem upstream_rejection_reported
    (key : string) (e : env) (ep : endpoint) (out : outcome)
    (c : outbound) (err : axios_error) :
  run key e ep = Some out -> In c (calls out) -> processor e c = Rejected err ->
  exists error,
    resp out = Json 500 (Obj [("status", Bool false);
                              ("message", Str (failure_message ep));
                              ("error", error)])
    /\ (forall d, err_response_data err = Some d ->
        truthy (get_prop d "message") = true -> error = get_prop d "message")
    /\ (forall d, err_response_data err = Some d ->
        truthy (get_prop d "message") = false -> error = Str (err_message err))
    /\ (err_response_data err = None -> error = Str (err_message err)).
Proof.
  intros Hrun Hin Hrej.
  rewrite (run_calls key e ep out c Hrun Hin), Hrej.
  exists (error_field (FromAxios err)). split; [reflexivity|].
  unfold error_field, js_or.
  repeat split.
  - intros d -> Ht. now rewrite Ht.
  - intros d -> Ht. now rewrite Ht.
  - intros ->. reflexivity.
Qed.

Lemma upstream_rejection_reported_witness :
  let err := AxiosError "Request failed with status code 400"
               (Some (Obj [("status", Bool false);
                           ("message", Str "Transaction reference not found")])) in
  let e := Env 1700000000000 "0.4fzyo82mvyr" (fun _ => Rejected err) in
  let c := AxiosGet "https://api.paystack.co/transaction/verify/nope"
                    "Bearer sk_test_secret" in
  let out := Outcome [c]
               (Json 500 (Obj [("status", Bool false);
                               ("message", Str "Failed to verify payment");
                               ("error", Str "Transaction reference not found")])) in
  run sample_secret e (VerifyPayment "nope") = Some out
  /\ In c (calls out)
  /\ processor e c = Rejected err
  /\ exists error,
       resp out = Json 500 (Obj [("status", Bool false);
                                 ("message", Str "Failed to verify payment");
                                 ("error", error)])
       /\ error = Str "Transaction reference not found".
Proof.
  intros err e c out.
  assert (Hrun : run sample_secret e (VerifyPayment "nope") = Some out)
    by (vm_compute; reflexivity).
  assert (Hin : In c (calls out)) by (left; reflexivity).
  assert (Hrej : processor e c = Rejected err) by reflexivity.
  repeat (split; [assumption|]).
  destruct (upstream_rejection_reported sample_secret e (VerifyPayment "nope")
              out c err Hrun Hin Hrej) as (error & Hresp & Hmsg & _).
  exists error. split; [exact Hresp|].
  apply (Hmsg _ eq_refl). reflexivity.
Defined.

(** ** The callback redirect *)



(** ** ListTransactions *)

Lemma split_on_sep (sep : ascii) (a rest : string) :
  all_chars (not_char sep) a = true ->
  split_on sep (a ++ String sep rest) = a :: split_on sep rest.
Proof.
  induction a as [|c a IH]; simpl; intros H.
  - now rewrite Ascii.eqb_refl.
  - apply andb_true_iff in H as [Hc Ha].
    apply negb_true_iff in Hc. rewrite Hc, (IH Ha). reflexivity.
Qed.

Lemma split_first_sep (sep : ascii) (a rest : string) :
  all_chars (not_char sep) a = true ->
  split_first sep (a ++ String sep rest) = (a, rest).
Proof.
  induction a as [|c a IH]; simpl; intros H.
  - now rewrite Ascii.eqb_refl.
  - apply andb_true_iff in H as [Hc Ha].
    apply negb_true_iff in Hc. rewrite Hc, (IH Ha). reflexivity.
Qed.

Lemma all_chars_app (p : ascii -> bool) (a b : string) :
  all_chars p (a ++ b) = all_chars p a && all_chars p b.
Proof.
  induction a as [|c a IH]; simpl; [reflexivity|].
  now rewrite IH, andb_assoc.
Qed.

(** A page value of the form [1&name=value] puts the pair [name=value]
    between [page] and [perPage] in the outbound query string. *)
Lemma transactions_parameter_injected (name value : string) :
  all_chars (not_char "&") name = true ->
  all_chars (not_char "=") name = true ->
  all_chars (not_char "&") value = true ->
  query_params (transactions_url (Some ("1&" ++ name ++ "=" ++ value)) None)
  = [("page", "1"); (name, value); ("perPage", "10")].
Proof.
  intros Hn He Hv. unfold query_params, transactions_url.
  change (snd (split_first "?"
     ("https://api.paystack.co/transaction?page=" ++
      ("1&" ++ name ++ "=" ++ value) ++ "&perPage=" ++ dec 10)))
    with ("page=1" ++ String "&" ((name ++ "=" ++ value) ++ String "&" "perPage=10")).
  rewrite split_on_sep by reflexivity.
  rewrite split_on_sep.
  - cbn [map]. change (name ++ "=" ++ value) with (name ++ String "=" value).
    rewrite (split_first_sep "=" name value He). reflexivity.
  - rewrite !all_chars_app, Hn, Hv. reflexivity.
Qed.

(** C10. The outbound URL is the concatenation of the fixed text with the
    two query values as received (1 and 10 when absent), with no escaping,
    and the call goes to that URL. Consequently a caller chooses further
    parameters of the outbound request: for any [name] and [value] free of
    delimiters, the page value [1&name=value] makes the outbound query
    string read [page=1], [name=value], [perPage=10]. *)
Theorem transactions_url_unescaped :
  (forall key e page perPage,
     let p := match page with Some s => s | None => "1" end in
     let n := match perPage with Some s => s | None => "10" end in
     transactions_url page perPage
     = "https://api.paystack.co/transaction?page=" ++ p ++ "&perPage=" ++ n
     /\ calls (transactions key e page perPage)
        = [AxiosGet ("https://api.paystack.co/transaction?page=" ++ p
                       ++ "&perPage=" ++ n) (bearer key)])
  /\ (forall name value,
       all_chars (not_char "&") name = true ->
       all_chars (not_char "=") name = true ->
       all_chars (not_char "&") value = true ->
       exists page,
         query_params (transactions_url (Some page) None)
         = [("page", "1"); (name, value); ("perPage", "10")]).
Proof.
  split.
  - intros key e [p|] [n|]; simpl; split; reflexivity.
  - intros name value Hn He Hv.
    exists ("1&" ++ name ++ "=" ++ value).
    exact (transactions_parameter_injected name value Hn He Hv).
Qed.

Lemma transactions_url_unescaped_witness :
  transactions_url (Some "1&admin=true") None
  = "https://api.paystack.co/transaction?page=1&admin=true&perPage=10"
  /\ exists page,
       query_params (transactions_url (Some page) None)
       = [("page", "1"); ("admin", "true"); ("perPage", "10")].
Proof.
  destruct transactions_url_unescaped as [Hurl Hinj].
  split.
  - exact (proj1 (Hurl sample_secret sample_env (Some "1&admin=true") None)).
  - apply (Hinj "admin" "true"); reflexivity.
Defined.

(* ================================================================== *)
(** * Further properties of the handlers *)

(** ** The shape of the digest *)

Lemma hex_of_bytes_length (l : list Z) :
  String.length (hex_of_bytes l) = (2 * List.length l)%nat.
Proof.
  induction l as [|b l IH]; simpl; [reflexivity|]. rewrite IH. lia.
Qed.

Lemma hex_digit_lower (d : Z) : 0 <= d < 16 -> is_lower_hex (hex_digit d) = true.
Proof.
  intros H.
  assert (C : d = 0 \/ d = 1 \/ d = 2 \/ d = 3 \/ d = 4 \/ d = 5 \/ d = 6 \/ d = 7
              \/ d = 8 \/ d = 9 \/ d = 10 \/ d = 11 \/ d = 12 \/ d = 13 \/ d = 14
              \/ d = 15) by lia.
  repeat (destruct C as [-> | C]; [reflexivity|]). subst d. reflexivity.
Qed.

Lemma hex_of_bytes_lower (l : list Z) :
  Forall is_byte l -> all_chars is_lower_hex (hex_of_bytes l) = true.
Proof.
  induction 1 as [|b l Hb _ IH]; [reflexivity|].
  unfold is_byte in Hb. cbn [hex_of_bytes hex_of_byte append all_chars].
  rewrite IH, !hex_digit_lower; [reflexivity| |].
  - change 15 with (Z.ones 4). rewrite Z.land_ones by lia.
    apply Z.mod_pos_bound. lia.
  - rewrite Z.shiftr_div_pow2 by lia. change (2 ^ 4) with 16.
    split; [apply Z.div_pos; lia|apply Z.div_lt_upper_bound; lia].
Qed.

Lemma be_bytes_are_bytes (n : nat) (x : Z) : Forall is_byte (Sha256.be_bytes n x).
Proof.
  induction n as [|n IH]; simpl; constructor; [|exact IH].
  unfold is_byte. change 255 with (Z.ones 8). rewrite Z.land_ones by lia.
  apply Z.mod_pos_bound. reflexivity.
Qed.

Lemma be_bytes_length (n : nat) (x : Z) : List.length (Sha256.be_bytes n x) = n.
Proof. induction n as [|n IH]; simpl; congruence. Qed.

Lemma compress_length (h block : list Z) :
  List.length h = 8%nat -> List.length (Sha256.compress h block) = 8%nat.
Proof.
  intros H. unfold Sha256.compress.
  rewrite length_map, length_combine, H. reflexivity.
Qed.

Lemma digest_words_length (msg : list Z) :
  List.length (Sha256.digest_words msg) = 8%nat.
Proof.
  unfold Sha256.digest_words.
  generalize (Sha256.blocks
                (List.length (Sha256.words_of_bytes (Sha256.pad msg)))
                (Sha256.words_of_bytes (Sha256.pad msg))).
  assert (H0 : List.length Sha256.H0 = 8%nat) by (vm_compute; reflexivity).
  revert H0. generalize Sha256.H0.
  intros h Hh bs. revert h Hh.
  induction bs as [|b bs IH]; intros h Hh; simpl; [exact Hh|].
  apply IH. now apply compress_length.
Qed.

Lemma sha256_shape (msg : list Z) :
  List.length (Sha256.sha256 msg) = 32%nat /\ Forall is_byte (Sha256.sha256 msg).
Proof.
  unfold Sha256.sha256. pose proof (digest_words_length msg) as H.
  destruct (Sha256.digest_words msg) as [|a [|b [|c [|d [|e [|f [|g [|h [|]]]]]]]]];
    try discriminate H.
  split; [reflexivity|].
  cbn [flat_map]. repeat (apply Forall_app; split; try apply be_bytes_are_bytes).
  constructor.
Qed.

(** The digest is 64 lower-case hexadecimal digits, whatever the key and
    the message. *)
Lemma hmac_sha256_hex_shape (secret msg : string) :
  String.length (hmac_sha256_hex secret msg) = 64%nat
  /\ all_chars is_lower_hex (hmac_sha256_hex secret msg) = true.
Proof.
  unfold hmac_sha256_hex, Sha256.hmac.
  match goal with |- context [Sha256.sha256 ?m] =>
    destruct (sha256_shape m) as [Hlen Hbytes]; revert Hlen Hbytes;
    generalize (Sha256.sha256 m) end.
  intros l Hlen Hbytes. rewrite hex_of_bytes_length, Hlen.
  split; [reflexivity|now apply hex_of_bytes_lower].
Qed.

(** X1. The digest the webhook compares with is 64 lower-case hexadecimal
    digits, and the comparison is exact: a signature header of another
    length, or with a character outside [0-9a-f] (an upper-case digest, a
    prefixed one), is answered 400 and nothing is dispatched. *)
Theorem webhook_signature_shape
    (secret : string) (req : webhook_request) (header : string) :
  wh_signature req = Some header ->
  String.length header <> 64%nat \/ all_chars is_lower_hex header = false ->
  String.length (webhook_hash secret req) = 64%nat
  /\ all_chars is_lower_hex (webhook_hash secret req) = true
  /\ webhook secret req = ([], Send 400 "Invalid signature").
Proof.
  intros Hh Hbad.
  destruct (hmac_sha256_hex_shape secret (JSON_stringify (body_value (wh_body req))))
    as [Hlen Hhex].
  fold (webhook_hash secret req) in Hlen, Hhex.
  split; [exact Hlen|]. split; [exact Hhex|].
  apply webhook_reject. rewrite Hh. intros E. inversion E; subst header.
  destruct Hbad as [H|H]; [contradiction|congruence].
Qed.

Lemma webhook_signature_shape_witness :
  let header := "6C2DD2130219703F6B62C29CCED0C5DAA636AA3D21418E7843EDFABE43E01304" in
  let req := WebhookRequest (BodyObj [("event", Str "totally.unknown")]) (Some header) in
  wh_signature req = Some header
  /\ (String.length header <> 64%nat \/ all_chars is_lower_hex header = false)
  /\ webhook sample_secret req = ([], Send 400 "Invalid signature").
Proof.
  intros header req.
  assert (H1 : wh_signature req = Some header) by reflexivity.
  assert (H2 : String.length header <> 64%nat \/ all_chars is_lower_hex header = false)
    by (right; vm_compute; reflexivity).
  split; [exact H1|]. split; [exact H2|].
  exact (proj2 (proj2 (webhook_signature_shape sample_secret req header H1 H2))).
Defined.

(** ** The envelope of the proxy endpoints *)

(** X2. When the processor's answer is an object, a string or any value
    other than [null] and [undefined], each proxy endpoint answers 200
    with [{status: true, data}], where [data] is the answer's own [data]
    field, unchanged ([undefined] when the answer has none);
    ListTransactions adds the answer's [meta] field. *)
Theorem upstream_answer_relayed
    (key : string) (e : env) (ep : endpoint) (out : outcome)
    (c : outbound) (d : jsval) :
  run key e ep = Some out -> In c (calls out) -> processor e c = Resolved d ->
  d <> Undefined -> d <> Null ->
  resp out
  = Json 200
      (Obj (("status", Bool true) :: ("data", get_prop d "data")
            :: match ep with
               | ListTransactions _ _ => [("meta", get_prop d "meta")]
               | _ => []
               end)).
Proof.
  intros Hrun Hin Hres Hu Hn.
  rewrite (run_calls key e ep out c Hrun Hin), Hres.
  unfold relay, read_fields.
  destruct d; try contradiction; destruct ep; reflexivity.
Qed.

Lemma upstream_answer_relayed_witness :
  let c := AxiosGet "https://api.paystack.co/transaction?page=2&perPage=10"
                    "Bearer sk_test_secret" in
  let d := Obj [("status", Bool true);
                ("data", Arr [Obj [("id", Num (Int 1))]]);
                ("meta", Obj [("total", Num (Int 1)); ("page", Num (Int 2))])] in
  let e := Env 1700000000000 "0.4fzyo82mvyr" (fun _ => Resolved d) in
  let out := Outcome [c]
               (Json 200 (Obj [("status", Bool true);
                               ("data", Arr [Obj [("id", Num (Int 1))]]);
                               ("meta", Obj [("total", Num (Int 1));
                                             ("page", Num (Int 2))])])) in
  run sample_secret e (ListTransactions (Some "2") None) = Some out
  /\ In c (calls out) /\ processor e c = Resolved d
  /\ d <> Undefined /\ d <> Null
  /\ resp out
     = Json 200
         (Obj [("status", Bool true); ("data", get_prop d "data");
               ("meta", get_prop d "meta")]).
Proof.
  intros c d e out.
  assert (H1 : run sample_secret e (ListTransactions (Some "2") None) = Some out)
    by (vm_compute; reflexivity).
  assert (H2 : In c (calls out)) by (left; reflexivity).
  assert (H3 : processor e c = Resolved d) by reflexivity.
  assert (H4 : d <> Undefined) by discriminate.
  assert (H5 : d <> Null) by discriminate.
  repeat (split; [assumption|]).
  exact (upstream_answer_relayed sample_secret e (ListTransactions (Some "2") None)
           out c d H1 H2 H3 H4 H5).
Defined.

(** X3. When the processor answers 2xx with the JSON text [null] (or with
    no value), reading [response.data.data] throws inside the try block:
    the endpoint answers 500 with [{status: false, message, error}], its
    own [message], and as [error] the message of the TypeError thrown by
    reading [data] of that value: [Cannot read properties of null (reading
    'data')], with [undefined] for [null] when there is no value. *)
Theorem upstream_null_answer_reported
    (key : string) (e : env) (ep : endpoint) (out : outcome)
    (c : outbound) (d : jsval) :
  run key e ep = Some out -> In c (calls out) -> processor e c = Resolved d ->
  d = Null \/ d = Undefined ->
  resp out = Json 500 (Obj [("status", Bool false);
                            ("message", Str (failure_message ep));
                            ("error", Str (type_error_message d "data"))])
  /\ type_error_message d "data"
     = "Cannot read properties of "
       ++ match d with Null => "null" | _ => "undefined" end
       ++ " (reading 'data')".
Proof.
  intros Hrun Hin Hres Hd.
  rewrite (run_calls key e ep out c Hrun Hin), Hres.
  destruct Hd as [-> | ->]; destruct ep; split; reflexivity.
Qed.

Lemma upstream_null_answer_reported_witness :
  let c := AxiosGet "https://api.paystack.co/transaction/verify/r1"
                    "Bearer sk_test_secret" in
  let e := Env 1700000000000 "0.4fzyo82mvyr" (fun _ => Resolved Null) in
  let out := Outcome [c]
               (Json 500 (Obj [("status", Bool false);
                               ("message", Str "Failed to verify payment");
                               ("error",
                                Str "Cannot read properties of null (reading 'data')")])) in
  run sample_secret e (VerifyPayment "r1") = Some out
  /\ In c (calls out) /\ processor e c = Resolved Null
  /\ (Null = Null \/ Null = Undefined)
  /\ resp out = Json 500 (Obj [("status", Bool false);
                               ("message", Str "Failed to verify payment");
                               ("error", Str (type_error_message Null "data"))])
  /\ type_error_message Null "data"
     = "Cannot read properties of null (reading 'data')".
Proof.
  intros c e out.
  assert (H1 : run sample_secret e (VerifyPayment "r1") = Some out)
    by (vm_compute; reflexivity).
  assert (H2 : In c (calls out)) by (left; reflexivity).
  assert (H3 : processor e c = Resolved Null) by reflexivity.
  assert (H4 : Null = Null \/ Null = Undefined) by (left; reflexivity).
  repeat (split; [assumption|]).
  exact (upstream_null_answer_reported sample_secret e (VerifyPayment "r1")
           out c Null H1 H2 H3 H4).
Defined.

(** X4. A request makes at most one call to the processor (none when
    validation fails: no retry follows a failure), and every call goes to
    a URL under [https://api.paystack.co/transaction] with the header
    [Authorization: Bearer <PAYSTACK_SECRET_KEY>]. *)
Theorem outbound_calls_disciplined
    (key : string) (e : env) (ep : endpoint) (out : outcome) :
  run key e ep = Some out ->
  (List.length (calls out) <= 1)%nat
  /\ forall c, In c (calls out) ->
       String.prefix processor_base (call_url c) = true
       /\ call_authorization c = "Bearer " ++ key.
Proof.
  intros Hrun. split.
  - exact (proj1 (proxy_endpoints_answer key e ep) out Hrun).
  - intros c Hin. destruct ep as [req|reference|page perPage]; simpl in Hrun.
    + pose proof (initialize_cases key e req out Hrun) as C. cbv zeta in C.
      destruct C as [[_ ->]|(_ & _ & d & _ & ->)]; simpl in Hin.
      * contradiction.
      * destruct Hin as [<-|[]]. split; reflexivity.
    + inversion Hrun; subst out. simpl in Hin. destruct Hin as [<-|[]].
      split; reflexivity.
    + inversion Hrun; subst out. simpl in Hin. destruct Hin as [<-|[]].
      split; reflexivity.
Qed.

Lemma outbound_calls_disciplined_witness :
  let req := sample_init (Num (Int 50)) in
  let d := PaymentData (Str "customer@example.com") (Int 5000) (Str "NGN")
             (Str "ref_1700000000000_4fzyo82mv")
             "https://shop.example/payment-callback" in
  let c := AxiosPost initialize_url d "Bearer sk_test_secret" in
  let out := Outcome [c]
               (Json 200 (Obj [("status", Bool true);
                               ("data", get_prop sample_answer "data")])) in
  run sample_secret sample_env (InitializePayment req) = Some out
  /\ (List.length (calls out) <= 1)%nat
  /\ String.prefix processor_base (call_url c) = true
  /\ call_authorization c = "Bearer " ++ sample_secret.
Proof.
  intros req d c out.
  assert (H : run sample_secret sample_env (InitializePayment req) = Some out)
    by (vm_compute; reflexivity).
  split; [exact H|].
  destruct (outbound_calls_disciplined sample_secret sample_env
              (InitializePayment req) out H) as [Hlen Hall].
  split; [exact Hlen|].
  apply Hall. left. reflexivity.
Defined.

(** ** The payment data of InitializePayment *)

(** X5. In a request that passes validation the currency is replaced by
    [NGN] only when the body has none; any value the body gives, [null]
    and the empty string included, is forwarded unchanged. A truthy
    reference of the client is forwarded unchanged, and the callback URL
    is the request's protocol and Host header followed by
    [/payment-callback] (the text [undefined] standing for a missing
    Host). *)
Theorem initialize_payload_fields
    (key : string) (e : env) (req : init_request) (out : outcome) :
  initialize_payment key e req = Some out ->
  let body := body_value (ip_body req) in
  truthy (get_prop body "email") = true ->
  truthy (get_prop body "amount") = true ->
  exists d,
    calls out = [AxiosPost initialize_url d (bearer key)]
    /\ (get_prop body "currency" = Undefined -> pd_currency d = Str "NGN")
    /\ (get_prop body "currency" <> Undefined ->
        pd_currency d = get_prop body "currency")
    /\ (truthy (get_prop body "reference") = true ->
        pd_reference d = get_prop body "reference")
    /\ (forall host, ip_host req = Some host ->
        pd_callback_url d = ip_protocol req ++ "://" ++ host ++ "/payment-callback")
    /\ (ip_host req = None ->
        pd_callback_url d = ip_protocol req ++ "://undefined/payment-callback").
Proof.
  intros Hrun. cbv zeta. intros He Ha.
  unfold initialize_payment in Hrun. rewrite He, Ha in Hrun. simpl in Hrun.
  destruct (times100 _) as [kobo|]; [|discriminate].
  inversion Hrun; subst out; clear Hrun.
  eexists. split; [reflexivity|]. cbn [pd_currency pd_reference pd_callback_url].
  split; [intros ->; reflexivity|].
  split; [intros H; destruct (get_prop _ "currency"); try reflexivity; contradiction|].
  split; [intros H; unfold js_or; now rewrite H|].
  unfold callback_url. split; [intros host ->|intros ->]; reflexivity.
Qed.

Lemma initialize_payload_fields_witness :
  let req :=
    InitRequest (BodyObj [("email", Str "customer@example.com");
                          ("amount", Num (Int 50));
                          ("currency", Null);
                          ("reference", Str "order-17")])
                "http" None in
  let body := body_value (ip_body req) in
  let d := PaymentData (Str "customer@example.com") (Int 5000) Null
             (Str "order-17") "http://undefined/payment-callback" in
  let out := Outcome [AxiosPost initialize_url d "Bearer sk_test_secret"]
               (Json 200 (Obj [("status", Bool true);
                               ("data", get_prop sample_answer "data")])) in
  initialize_payment sample_secret sample_env req = Some out
  /\ truthy (get_prop body "email") = true
  /\ truthy (get_prop body "amount") = true
  /\ exists d',
       calls out = [AxiosPost initialize_url d' (bearer sample_secret)]
       /\ pd_currency d' = Null
       /\ pd_reference d' = Str "order-17"
       /\ pd_callback_url d' = "http://undefined/payment-callback".
Proof.
  intros req body d out.
  assert (H1 : initialize_payment sample_secret sample_env req = Some out)
    by (vm_compute; reflexivity).
  assert (H2 : truthy (get_prop body "email") = true) by reflexivity.
  assert (H3 : truthy (get_prop body "amount") = true) by reflexivity.
  repeat (split; [assumption|]).
  destruct (initialize_payload_fields sample_secret sample_env req out H1 H2 H3)
    as (d' & Hc & _ & Hcur & Href & _ & Hhost).
  exists d'. split; [exact Hc|].
  split; [apply Hcur; discriminate|].
  split; [apply Href; reflexivity|].
  apply Hhost. reflexivity.
Defined.

(** ** The callback without a reference *)

(** X6. A callback request with no [reference] (or an empty one) and no
    [trxref] is still redirected, to
    [/?reference=undefined&status=success]: the flag [status=success] is
    sent whatever the request carries. *)
Theorem callback_without_reference (reference : option string) :
  reference = None \/ reference = Some "" ->
  payment_callback reference None
  = Redirect "/?reference=undefined&status=success"
  /\ forall r t, exists text,
       payment_callback r t
       = Redirect ("/?reference=" ++ text ++ "&status=success").
Proof.
  intros H. split.
  - destruct H as [-> | ->]; reflexivity.
  - intros r t. eexists. reflexivity.
Qed.

Lemma callback_without_reference_witness :
  (@None string = None \/ @None string = Some "")
  /\ payment_callback None None = Redirect "/?reference=undefined&status=success".
Proof.
  assert (H : @None string = None \/ @None string = Some "") by (left; reflexivity).
  split; [exact H|].
  exact (proj1 (callback_without_reference None H)).
Defined.

(** ** The reference of VerifyPayment in the outbound URL *)

Lemma split_on_whole (sep : ascii) (a : string) :
  all_chars (not_char sep) a = true -> split_on sep a = [a].
Proof.
  induction a as [|c a IH]; simpl; intros H; [reflexivity|].
  apply andb_true_iff in H as [Hc Ha].
  apply negb_true_iff in Hc. rewrite Hc, (IH Ha). reflexivity.
Qed.

Lemma string_app_assoc (a b c : string) : (a ++ b) ++ c = a ++ b ++ c.
Proof. induction a as [|x a IH]; simpl; [reflexivity|now rewrite IH]. Qed.

Lemma split_first_whole (sep : ascii) (a : string) :
  all_chars (not_char sep) a = true -> split_first sep a = (a, "").
Proof.
  induction a as [|c a IH]; simpl; intros H; [reflexivity|].
  apply andb_true_iff in H as [Hc Ha].
  apply negb_true_iff in Hc. rewrite Hc, (IH Ha). reflexivity.
Qed.

(** A URL without [#] is sent whole, and its query is the text after its
    first [?]. *)
Lemma without_fragment_whole (url : string) :
  all_chars (not_char "#") url = true -> without_fragment url = url.
Proof. intros H. unfold without_fragment. now rewrite split_first_whole. Qed.

Lemma request_query_whole (url : string) :
  all_chars (not_char "#") url = true -> request_query url = query_params url.
Proof. intros H. unfold request_query. now rewrite without_fragment_whole. Qed.

(** A [#] in the reference ends what is sent: the lookup is that of the
    text before it and no query follows. *)
Example reference_with_fragment :
  let url := "https://api.paystack.co/transaction/verify/a#b?currency=USD" in
  calls (verify_payment sample_secret sample_env "a#b?currency=USD")
  = [AxiosGet url (bearer sample_secret)]
  /\ without_fragment url = "https://api.paystack.co/transaction/verify/a"
  /\ request_path url = "https://api.paystack.co/transaction/verify/a".
Proof. repeat split. Qed.

(** X7. VerifyPayment appends the reference of the route to the URL as it
    is, with no escaping: the single call goes to
    [.../transaction/verify/<reference>], and a reference of the form
    [r?name=value], with no [#] in it, makes the outbound request carry the
    query parameter [name=value] on the lookup of [r]. *)
Theorem verify_reference_unescaped
    (key : string) (e : env) (r name value : string) :
  all_chars (not_char "?") r = true ->
  all_chars (not_char "&") name = true ->
  all_chars (not_char "=") name = true ->
  all_chars (not_char "&") value = true ->
  all_chars (not_char "#") r = true ->
  all_chars (not_char "#") name = true ->
  all_chars (not_char "#") value = true ->
  let reference := r ++ "?" ++ name ++ "=" ++ value in
  let url := "https://api.paystack.co/transaction/verify/" ++ reference in
  calls (verify_payment key e reference) = [AxiosGet url (bearer key)]
  /\ without_fragment url = url
  /\ request_path url = "https://api.paystack.co/transaction/verify/" ++ r
  /\ request_query url = [(name, value)].
Proof.
  intros Hr Hn He Hv Fr Fn Fv. cbv zeta. split; [reflexivity|].
  assert (W : without_fragment
                ("https://api.paystack.co/transaction/verify/"
                 ++ r ++ "?" ++ name ++ "=" ++ value)
              = "https://api.paystack.co/transaction/verify/"
                ++ r ++ "?" ++ name ++ "=" ++ value).
  { apply without_fragment_whole.
    rewrite !all_chars_app, Fr, Fn, Fv. reflexivity. }
  split; [exact W|].
  unfold request_path, request_query. rewrite W.
  assert (E : split_first "?"
                ("https://api.paystack.co/transaction/verify/"
                 ++ r ++ "?" ++ name ++ "=" ++ value)
              = ("https://api.paystack.co/transaction/verify/" ++ r,
                 name ++ String "=" value)).
  { rewrite <- string_app_assoc.
    change ("?" ++ name ++ "=" ++ value) with (String "?" (name ++ String "=" value)).
    apply split_first_sep. rewrite all_chars_app, Hr. reflexivity. }
  unfold query_params. rewrite E. cbn [fst snd]. split; [reflexivity|].
  rewrite split_on_whole.
  - cbn [map]. now rewrite split_first_sep.
  - change (String "=" value) with ("=" ++ value).
    rewrite !all_chars_app, Hn, Hv. reflexivity.
Qed.

Lemma verify_reference_unescaped_witness :
  all_chars (not_char "?") "T685312322670591" = true
  /\ all_chars (not_char "&") "currency" = true
  /\ all_chars (not_char "=") "currency" = true
  /\ all_chars (not_char "&") "USD" = true
  /\ all_chars (not_char "#") "T685312322670591" = true
  /\ all_chars (not_char "#") "currency" = true
  /\ all_chars (not_char "#") "USD" = true
  /\ calls (verify_payment sample_secret sample_env "T685312322670591?currency=USD")
     = [AxiosGet
          "https://api.paystack.co/transaction/verify/T685312322670591?currency=USD"
          (bearer sample_secret)]
  /\ request_path
       "https://api.paystack.co/transaction/verify/T685312322670591?currency=USD"
     = "https://api.paystack.co/transaction/verify/T685312322670591"
  /\ request_query
       "https://api.paystack.co/transaction/verify/T685312322670591?currency=USD"
     = [("currency", "USD")].
Proof.
  assert (H1 : all_chars (not_char "?") "T685312322670591" = true) by reflexivity.
  assert (H2 : all_chars (not_char "&") "currency" = true) by reflexivity.
  assert (H3 : all_chars (not_char "=") "currency" = true) by reflexivity.
  assert (H4 : all_chars (not_char "&") "USD" = true) by reflexivity.
  assert (H5 : all_chars (not_char "#") "T685312322670591" = true) by reflexivity.
  assert (H6 : all_chars (not_char "#") "currency" = true) by reflexivity.
  assert (H7 : all_chars (not_char "#") "USD" = true) by reflexivity.
  repeat (split; [assumption|]).
  destruct (verify_reference_unescaped sample_secret sample_env
              "T685312322670591" "currency" "USD" H1 H2 H3 H4 H5 H6 H7)
    as (Hc & _ & Hp & Hq).
  split; [exact Hc|split; [exact Hp|exact Hq]].
Defined.

(** The same reading of what is sent applies to ListTransactions: with no
    [#] in [name] and [value], the parameter placed through [page] is part
    of the request. *)
Lemma transactions_parameter_sent (name value : string) :
  all_chars (not_char "&") name = true ->
  all_chars (not_char "=") name = true ->
  all_chars (not_char "&") value = true ->
  all_chars (not_char "#") name = true ->
  all_chars (not_char "#") value = true ->
  request_query (transactions_url (Some ("1&" ++ name ++ "=" ++ value)) None)
  = [("page", "1"); (name, value); ("perPage", "10")].
Proof.
  intros Hn He Hv Fn Fv. rewrite request_query_whole.
  - now apply transactions_parameter_injected.
  - unfold transactions_url.
    change (dec 10) with "10".
    rewrite !all_chars_app, Fn, Fv. reflexivity.
Qed.

(** ** Amounts given as text *)

Lemma digit_cases (c : ascii) :
  is_digit c = true ->
  c = "0"%char \/ c = "1"%char \/ c = "2"%char \/ c = "3"%char \/ c = "4"%char
  \/ c = "5"%char \/ c = "6"%char \/ c = "7"%char \/ c = "8"%char \/ c = "9"%char.
Proof.
  destruct c as [[] [] [] [] [] [] [] []]; intros H;
    try (vm_compute in H; discriminate H); auto 11.
Qed.

Lemma rev_string_twice (s a b : string) :
  rev_string b (rev_string a s) = rev_string (s ++ b) a.
Proof.
  revert a b. induction s as [|c s IH]; intros a b; simpl; [reflexivity|].
  rewrite IH. reflexivity.
Qed.

Lemma all_chars_rev_string (p : ascii -> bool) (s acc : string) :
  all_chars p (rev_string acc s) = all_chars p s && all_chars p acc.
Proof.
  revert acc. induction s as [|c s IH]; intros acc; simpl; [reflexivity|].
  rewrite IH. simpl. rewrite !andb_assoc. f_equal. apply andb_comm.
Qed.

Lemma rev_string_empty (s acc : string) :
  rev_string acc s = "" -> s = "" /\ acc = "".
Proof.
  revert acc. induction s as [|c s IH]; intros acc H; simpl in H; [auto|].
  apply IH in H. destruct H as [_ H]. discriminate.
Qed.

Lemma drop_ws_digits (s : string) :
  all_chars is_digit s = true -> drop_while is_str_ws s = s.
Proof.
  destruct s as [|c s]; [reflexivity|]. simpl. intros H.
  apply andb_true_iff in H as [Hc _].
  destruct (digit_cases c Hc) as [->|[->|[->|[->|[->|[->|[->|[->|[->| ->]]]]]]]]];
    reflexivity.
Qed.

Lemma trim_digits (s : string) : all_chars is_digit s = true -> trim s = s.
Proof.
  intros H. unfold trim. rewrite (drop_ws_digits s H).
  rewrite drop_ws_digits.
  - rewrite rev_string_twice. simpl. clear. induction s; simpl; congruence.
  - rewrite all_chars_rev_string, H. reflexivity.
Qed.

Lemma digits_ascii (s : string) :
  all_chars is_digit s = true -> all_chars is_ascii_char s = true.
Proof.
  induction s as [|c s IH]; simpl; intros H; [reflexivity|].
  apply andb_true_iff in H as [Hc Hs]. rewrite (IH Hs), andb_true_r.
  destruct (digit_cases c Hc) as [->|[->|[->|[->|[->|[->|[->|[->|[->| ->]]]]]]]]];
    reflexivity.
Qed.

Lemma digits_val_nonneg (s : string) :
  all_chars is_digit s = true -> forall acc, 0 <= acc -> 0 <= digits_val acc s.
Proof.
  induction s as [|c s IH]; cbn [digits_val all_chars]; intros H acc Hacc;
    [exact Hacc|].
  apply andb_true_iff in H as [Hc Hs]. apply (IH Hs).
  unfold is_digit in Hc. cbv zeta in Hc.
  apply andb_true_iff in Hc as [H1 H2]. apply Z.leb_le in H1, H2.
  unfold digit_val. lia.
Qed.

Ltac each_digit H :=
  destruct H as [->|[->|[->|[->|[->|[->|[->|[->|[->| ->]]]]]]]]].

(** A non-empty run of decimal digits denotes its value. *)
Lemma string_to_number_digits (s : string) :
  s <> "" -> all_chars is_digit s = true ->
  string_to_number s = int_result false (digits_val 0 s).
Proof.
  intros Hne Hd. unfold string_to_number.
  rewrite (digits_ascii s Hd), (trim_digits s Hd). cbn [negb].
  assert (Hs : signed_decimal false s = int_result false (digits_val 0 s)).
  { unfold signed_decimal. rewrite Hd.
    destruct s as [|c s']; [contradiction|].
    simpl in Hd. apply andb_true_iff in Hd as [Hc _].
    pose proof (digit_cases c Hc) as C. each_digit C; reflexivity. }
  destruct s as [|c s']; [contradiction|].
  pose proof Hd as Hd'. simpl in Hd'. apply andb_true_iff in Hd' as [Hc Hs'].
  pose proof (digit_cases c Hc) as C. each_digit C; try exact Hs.
  destruct s' as [|c2 s'']; [exact Hs|].
  simpl in Hs'. apply andb_true_iff in Hs' as [Hc2 _].
  pose proof (digit_cases c2 Hc2) as C2. each_digit C2; exact Hs.
Qed.

(** X8. An amount given as a text of decimal digits, as a form-encoded
    body gives it, passes validation whatever its value, the text [0]
    included (a non-empty string is truthy), and is forwarded to the
    processor as the number it denotes times 100. *)
Theorem initialize_coerces_numeric_text
    (key : string) (e : env) (req : init_request) (s : string) :
  let body := body_value (ip_body req) in
  truthy (get_prop body "email") = true ->
  get_prop body "amount" = Str s ->
  s <> "" -> all_chars is_digit s = true ->
  digits_val 0 s * 100 <= max_safe ->
  exists d,
    initialize_payment key e req
    = Some (Outcome [AxiosPost initialize_url d (bearer key)]
              (relay "Failed to initialize payment" ["data"]
                     (processor e (AxiosPost initialize_url d (bearer key)))))
    /\ pd_amount d = Int (digits_val 0 s * 100).
Proof.
  cbv zeta. intros He Ha Hne Hd Hsafe.
  pose proof (digits_val_nonneg s Hd 0 (Z.le_refl 0)) as Hpos.
  destruct (initialize_forwards key e req (Int (digits_val 0 s * 100)))
    as (d & Hrun & _ & Hamt & _).
  - exact He.
  - rewrite Ha. simpl. apply String.eqb_neq in Hne. now rewrite Hne.
  - rewrite Ha. unfold times100. cbn [to_number].
    rewrite (string_to_number_digits s Hne Hd).
    unfold int_result, exact.
    replace (Z.abs (digits_val 0 s) <=? max_safe) with true
      by (symmetry; apply Z.leb_le; lia).
    cbn [times]. unfold exact.
    replace (Z.abs (digits_val 0 s * 100) <=? max_safe) with true
      by (symmetry; apply Z.leb_le; lia).
    reflexivity.
  - exists d. split; [exact Hrun|exact Hamt].
Qed.

Lemma initialize_coerces_numeric_text_witness :
  let req := sample_init (Str "0") in
  let body := body_value (ip_body req) in
  truthy (get_prop body "email") = true
  /\ get_prop body "amount" = Str "0"
  /\ "0" <> "" /\ all_chars is_digit "0" = true
  /\ digits_val 0 "0" * 100 <= max_safe
  /\ exists d,
       initialize_payment sample_secret sample_env req
       = Some (Outcome [AxiosPost initialize_url d (bearer sample_secret)]
                 (relay "Failed to initialize payment" ["data"]
                    (processor sample_env
                       (AxiosPost initialize_url d (bearer sample_secret)))))
       /\ pd_amount d = Int (digits_val 0 "0" * 100).
Proof.
  intros req body.
  assert (H1 : truthy (get_prop body "email") = true) by reflexivity.
  assert (H2 : get_prop body "amount" = Str "0") by reflexivity.
  assert (H3 : "0" <> "") by discriminate.
  assert (H4 : all_chars is_digit "0" = true) by reflexivity.
  assert (H5 : digits_val 0 "0" * 100 <= max_safe) by (vm_compute; discriminate).
  repeat (split; [assumption|]).
  exact (initialize_coerces_numeric_text sample_secret sample_env req "0"
           H1 H2 H3 H4 H5).
Defined.

(** ** Start-up *)

(** X9. The process exits with code 1 and the message
    [PAYSTACK_SECRET_KEY is required] exactly when the variable is unset
    or empty, before it listens; otherwise it listens with that secret, on
    the text of PORT when that variable is set and not empty, and on 3000
    when it is not. *)
Theorem startup_requires_secret (PORT_var KEY_var : option string) :
  (startup PORT_var KEY_var = Exited 1 "PAYSTACK_SECRET_KEY is required"
   <-> KEY_var = None \/ KEY_var = Some "")
  /\ (forall key, KEY_var = Some key -> key <> "" ->
      (forall port, PORT_var = Some port -> port <> "" ->
       startup PORT_var KEY_var = Listen (Str port) key)
      /\ (PORT_var = None \/ PORT_var = Some "" ->
          startup PORT_var KEY_var = Listen (Num (Int 3000)) key)).
Proof.
  unfold startup, env_var, js_or. split.
  - destruct KEY_var as [k|]; simpl.
    + destruct (String.eqb_spec k "") as [->|Hk]; simpl.
      * split; auto.
      * split; [discriminate|]. intros [H|H]; [discriminate|]. congruence.
    + split; auto.
  - intros key -> Hk. simpl. apply String.eqb_neq in Hk. rewrite Hk. simpl.
    split.
    + intros port -> Hp. simpl. apply String.eqb_neq in Hp. now rewrite Hp.
    + intros [-> | ->]; reflexivity.
Qed.

Lemma startup_requires_secret_witness :
  startup (Some "8080") None = Exited 1 "PAYSTACK_SECRET_KEY is required"
  /\ startup (Some "") (Some "sk_test_secret")
     = Listen (Num (Int 3000)) "sk_test_secret".
Proof.
  split.
  - apply (proj1 (startup_requires_secret (Some "8080") None)). left. reflexivity.
  - apply (proj2 (startup_requires_secret (Some "") (Some "sk_test_secret"))
             "sk_test_secret" eq_refl); [discriminate|]. right. reflexivity.
Defined.

(* ================================================================== *)
(** * A sender that signs what JSON.stringify prints *)

(** ** Decimal numerals *)

Ltac digit_value :=
  match goal with
  | |- context [digit_val ?c] =>
      let v := eval vm_compute in (digit_val c) in change (digit_val c) with v
  end.

Lemma digits_val_uint_acc (d : Decimal.uint) (acc : positive) :
  digits_val (Z.pos acc) (NilEmpty.string_of_uint d) = Z.pos (Pos.of_uint_acc d acc).
Proof.
  revert acc.
  induction d; intros acc;
    cbn [NilEmpty.string_of_uint digits_val Pos.of_uint_acc];
    try reflexivity; rewrite <- IHd; f_equal; digit_value; lia.
Qed.

Lemma digits_val_uint (d : Decimal.uint) :
  digits_val 0 (NilEmpty.string_of_uint d) = Z.of_N (Pos.of_uint d).
Proof.
  induction d; cbn [NilEmpty.string_of_uint digits_val Pos.of_uint];
    try reflexivity; digit_value;
    [exact IHd | cbn [Z.of_N]; rewrite <- digits_val_uint_acc; reflexivity ..].
Qed.

Lemma uint_all_digits (d : Decimal.uint) :
  all_chars is_digit (NilEmpty.string_of_uint d) = true.
Proof. induction d; simpl; auto. Qed.

Lemma nzhead_not_D0 (d d' : Decimal.uint) : Decimal.nzhead d <> Decimal.D0 d'.
Proof. induction d; simpl; try discriminate. exact IHd. Qed.

Lemma to_uint_head (p : positive) :
  exists c t, NilEmpty.string_of_uint (Pos.to_uint p) = String c t
              /\ is_digit c = true /\ c <> "0"%char.
Proof.
  pose proof (DecimalPos.Unsigned.to_of (Pos.to_uint p)) as H.
  rewrite DecimalPos.Unsigned.of_to in H. cbn [N.to_uint] in H.
  pose proof (Unsigned.to_uint_nonnil p) as Hnil.
  pose proof (Unsigned.to_uint_nonzero p) as Hnz.
  destruct (Pos.to_uint p) as [|d|d|d|d|d|d|d|d|d|d] eqn:E;
    [contradiction| |cbn [NilEmpty.string_of_uint]; do 2 eexists;
                     (split; [reflexivity|split; [reflexivity|discriminate]]) ..].
  exfalso. rewrite unorm_D0 in H.
  destruct (Decimal.nzhead d) eqn:En;
    [apply unorm_0 in En; rewrite En in H; inversion H; subst d; now apply Hnz
    |rewrite unorm_nzhead in H by (rewrite En; discriminate);
     symmetry in H; now apply nzhead_not_D0 in H ..].
Qed.

Lemma value_end_head (c : ascii) (r : string) :
  value_end (String c r) = true ->
  byte_of_ascii c = 44 \/ byte_of_ascii c = 93 \/ byte_of_ascii c = 125.
Proof.
  unfold value_end. cbv zeta. intros H.
  apply orb_true_iff in H as [H|H]; [apply orb_true_iff in H as [H|H]|];
    apply Z.eqb_eq in H; auto.
Qed.

Lemma span_digits (ds rest : string) :
  all_chars is_digit ds = true -> value_end rest = true ->
  span is_digit (ds ++ rest) = (ds, rest).
Proof.
  intros Hd Hr. induction ds as [|c ds IH]; cbn [append span].
  - destruct rest as [|c r]; [reflexivity|]. cbn [span].
    apply value_end_head in Hr.
    replace (is_digit c) with false; [reflexivity|].
    symmetry. unfold is_digit. cbv zeta.
    destruct Hr as [-> | [-> | ->]]; reflexivity.
  - cbn [all_chars] in Hd. apply andb_true_iff in Hd as [Hc Hd].
    rewrite Hc, (IH Hd). reflexivity.
Qed.

Lemma parse_int_nonzero_head (c : ascii) (t : string) :
  c <> "-"%char -> c <> "0"%char ->
  parse_int (String c t)
  = (let '(ds, rest) := span is_digit (String c t) in
     match ds with
     | EmptyString => None
     | _ =>
         let continues :=
           match rest with
           | String c _ =>
               let b := byte_of_ascii c in (b =? 46) || (b =? 101) || (b =? 69)
           | EmptyString => false
           end in
         let z := digits_val 0 ds in
         if continues || negb (exact z) then None else Some (z, rest)
     end).
Proof.
  intros H1 H2.
  destruct c as [[] [] [] [] [] [] [] []]; try reflexivity; contradiction.
Qed.

Lemma parse_int_minus (t : string) :
  parse_int (String "-" t)
  = (let '(ds, rest) :=
       match t with
       | String "0" r => ("0", r)
       | _ => span is_digit t
       end in
     match ds with
     | EmptyString => None
     | _ =>
         let continues :=
           match rest with
           | String c _ =>
               let b := byte_of_ascii c in (b =? 46) || (b =? 101) || (b =? 69)
           | EmptyString => false
           end in
         let z := digits_val 0 ds in
         if continues || negb (exact z) then None else Some (- z, rest)
     end).
Proof. reflexivity. Qed.

Lemma not_continues (rest : string) :
  value_end rest = true ->
  match rest with
  | String c _ =>
      (byte_of_ascii c =? 46) || (byte_of_ascii c =? 101) || (byte_of_ascii c =? 69)
  | EmptyString => false
  end = false.
Proof.
  destruct rest as [|c r]; [reflexivity|]. intros H.
  apply value_end_head in H.
  destruct H as [-> | [-> | ->]]; reflexivity.
Qed.

(** Reading a printed integer gives the integer back. *)
Lemma parse_int_dec (z : Z) (rest : string) :
  exact z = true -> value_end rest = true ->
  parse_int (dec z ++ rest) = Some (z, rest).
Proof.
  intros Hz Hr. unfold dec. destruct z as [|p|p]; cbn [Z.to_int NilEmpty.string_of_int].
  - cbn [Pos.to_uint NilEmpty.string_of_uint append].
    unfold parse_int. cbn -[exact byte_of_ascii Z.eqb digits_val].
    rewrite (not_continues rest Hr). reflexivity.
  - destruct (to_uint_head p) as (c & t & E & Hc & Hc0).
    pose proof (uint_all_digits (Pos.to_uint p)) as Hall.
    pose proof (digits_val_uint (Pos.to_uint p)) as Hval.
    rewrite DecimalPos.Unsigned.of_to in Hval. cbn [Z.of_N] in Hval.
    rewrite E in *. cbn [append].
    rewrite parse_int_nonzero_head;
      [|intros ->; discriminate Hc|exact Hc0].
    change (String c (t ++ rest)) with (String c t ++ rest).
    rewrite (span_digits _ _ Hall Hr). cbv zeta.
    rewrite (not_continues rest Hr), Hval, Hz. reflexivity.
  - destruct (to_uint_head p) as (c & t & E & Hc & Hc0).
    pose proof (uint_all_digits (Pos.to_uint p)) as Hall.
    pose proof (digits_val_uint (Pos.to_uint p)) as Hval.
    rewrite DecimalPos.Unsigned.of_to in Hval. cbn [Z.of_N] in Hval.
    rewrite E in *. cbn [append].
    rewrite parse_int_minus.
    replace (match String c (t ++ rest) with
             | String "0" r => ("0", r)
             | _ => span is_digit (String c (t ++ rest))
             end) with (span is_digit (String c (t ++ rest)))
      by (destruct c as [[] [] [] [] [] [] [] []]; try reflexivity; contradiction).
    change (String c (t ++ rest)) with (String c t ++ rest).
    rewrite (span_digits _ _ Hall Hr). cbv zeta.
    rewrite (not_continues rest Hr), Hval.
    replace (exact (Z.pos p)) with true by (symmetry; exact Hz).
    reflexivity.
Qed.

(** ** String literals *)

Lemma canonical_arr (items : list jsval) :
  canonical (Arr items) = canonical_items items.
Proof. reflexivity. Qed.

Lemma canonical_obj (props : list (string * jsval)) :
  canonical (Obj props)
  = (canonical_members props /\ fold_left define props [] = props).
Proof. reflexivity. Qed.

Lemma serialize_arr (items : list jsval) :
  serialize (Arr items) = Some ("[" ++ join "," (map elem_text items) ++ "]").
Proof. reflexivity. Qed.

Lemma serialize_obj (props : list (string * jsval)) :
  serialize (Obj props) = Some ("{" ++ join "," (member_texts props) ++ "}").
Proof. reflexivity. Qed.

Lemma parse_chars_escape_char (c : ascii) (tail : string) :
  is_ascii_char c = true ->
  parse_chars (escape_char c ++ tail) = cons_fst c (parse_chars tail).
Proof.
  destruct c as [[] [] [] [] [] [] [] []]; intros H;
    try discriminate H; reflexivity.
Qed.

(** Reading a quoted string gives the string back. *)
Lemma parse_chars_escape (s rest : string) :
  all_chars is_ascii_char s = true ->
  parse_chars (escape s ++ String dquote rest) = Some (s, rest).
Proof.
  induction s as [|c s IH]; cbn [escape all_chars append]; intros H.
  - reflexivity.
  - apply andb_true_iff in H as [Hc Hs].
    rewrite string_app_assoc, parse_chars_escape_char, (IH Hs) by exact Hc.
    reflexivity.
Qed.

(** ** Parsing a printed value *)

Lemma length_append (a b : string) :
  String.length (a ++ b) = (String.length a + String.length b)%nat.
Proof. induction a as [|c a IH]; simpl; [reflexivity|now rewrite IH]. Qed.

Lemma append_nil (a : string) : a ++ "" = a.
Proof. induction a as [|c a IH]; simpl; [reflexivity|now rewrite IH]. Qed.

Lemma substring_whole (s : string) : String.substring 0 (String.length s) s = s.
Proof. induction s as [|c s IH]; simpl; [reflexivity|now rewrite IH]. Qed.

Lemma dec_head (z : Z) :
  exists c t, dec z = String c t /\ (c = "-"%char \/ is_digit c = true).
Proof.
  unfold dec. destruct z as [|p|p]; cbn [Z.to_int NilEmpty.string_of_int].
  - do 2 eexists. split; [reflexivity|right; reflexivity].
  - destruct (to_uint_head p) as (c & t & E & Hc & _). rewrite E. eauto.
  - do 2 eexists. split; [reflexivity|left; reflexivity].
Qed.

Lemma sign_or_digit_opens (c : ascii) :
  c = "-"%char \/ is_digit c = true -> opens_value c.
Proof.
  intros [-> | H]; [repeat split; discriminate|].
  apply digit_cases in H. each_digit H; repeat split; discriminate.
Qed.

Lemma elem_text_head (v : jsval) :
  canonical v -> exists c t, elem_text v = String c t /\ opens_value c.
Proof.
  destruct v as [| |[|]|[z|]|s|items|props]; cbn [canonical]; intros H;
    try contradiction;
    try (do 2 eexists; split; [reflexivity|repeat split; discriminate]).
  destruct (dec_head z) as (c & t & E & Hc).
  exists c, t. split; [exact E|now apply sign_or_digit_opens].
Qed.

Lemma elem_text_length (v : jsval) :
  canonical v -> (1 <= String.length (elem_text v))%nat.
Proof.
  intros H. destruct (elem_text_head v H) as (c & t & -> & _). simpl. lia.
Qed.

Lemma canonical_serialize (v : jsval) :
  canonical v -> serialize v = Some (elem_text v).
Proof.
  unfold elem_text. destruct v as [| |[|]|[z|]|s|items|props];
    cbn [canonical]; intros H; try contradiction; reflexivity.
Qed.

Lemma skip_ws_head (c : ascii) (t : string) :
  is_json_ws c = false -> skip_ws (String c t) = String c t.
Proof. intros H. cbn [skip_ws]. now rewrite H. Qed.

Lemma peek_head (c : ascii) (t : string) :
  is_json_ws c = false -> peek (String c t) = Some (byte_of_ascii c, t).
Proof. intros H. unfold peek. now rewrite skip_ws_head. Qed.

Lemma parse_value_S (f : nat) (s : string) :
  parse_value (S f) s
  = match skip_ws s with
    | EmptyString => None
    | String c r as t =>
        let b := byte_of_ascii c in
        if b =? 123 then
          match peek r with
          | Some (b', r') =>
              if b' =? 125 then Some (Obj [], r') else parse_members f r []
          | None => None
          end
        else if b =? 91 then
          match peek r with
          | Some (b', r') =>
              if b' =? 93 then Some (Arr [], r') else parse_elements f r []
          | None => None
          end
        else if b =? 34 then
          match parse_chars r with
          | Some (str, r') => Some (Str str, r')
          | None => None
          end
        else if (b =? 45) || is_digit c then
          match parse_int t with
          | Some (z, r') => Some (Num (Int z), r')
          | None => None
          end
        else parse_literal t
    end.
Proof. reflexivity. Qed.

Lemma parse_elements_S (f : nat) (s : string) (acc : list jsval) :
  parse_elements (S f) s acc
  = match parse_value f s with
    | Some (v, r) =>
        match peek r with
        | Some (b, r') =>
            if b =? 44 then parse_elements f r' (acc ++ [v])
            else if b =? 93 then Some (Arr (acc ++ [v]), r')
            else None
        | None => None
        end
    | None => None
    end.
Proof. reflexivity. Qed.

Lemma parse_members_S (f : nat) (s : string) (acc : list (string * jsval)) :
  parse_members (S f) s acc
  = match peek s with
    | Some (q, r) =>
        if q =? 34 then
          match parse_chars r with
          | Some (k, r1) =>
              match peek r1 with
              | Some (colon, r2) =>
                  if colon =? 58 then
                    match parse_value f r2 with
                    | Some (v, r3) =>
                        match peek r3 with
                        | Some (b, r4) =>
                            if b =? 44 then parse_members f r4 (set_prop k v acc)
                            else if b =? 125 then Some (Obj (set_prop k v acc), r4)
                            else None
                        | None => None
                        end
                    | None => None
                    end
                  else None
              | None => None
              end
          | None => None
          end
        else None
    | None => None
    end.
Proof. reflexivity. Qed.

Lemma prefix_app (a b : string) : String.prefix a (a ++ b) = true.
Proof.
  induction a as [|c a IH]; simpl; [now destruct b|].
  destruct (ascii_dec c c) as [_|N]; [exact IH|contradiction].
Qed.

Lemma substring_skip (a b : string) (n : nat) :
  String.substring (String.length a) n (a ++ b) = String.substring 0 n b.
Proof. induction a as [|c a IH]; simpl; [reflexivity|exact IH]. Qed.

Lemma starts_with_lit_app (lit rest : string) :
  starts_with_lit lit (lit ++ rest) = Some rest.
Proof.
  unfold starts_with_lit. rewrite prefix_app, substring_skip, length_append.
  replace (String.length lit + String.length rest - String.length lit)%nat
    with (String.length rest) by lia.
  now rewrite substring_whole.
Qed.

Lemma parse_literal_null (rest : string) :
  parse_literal ("null" ++ rest) = Some (Null, rest).
Proof.
  unfold parse_literal. rewrite (starts_with_lit_app "null" rest). reflexivity.
Qed.

Lemma parse_literal_true (rest : string) :
  parse_literal ("true" ++ rest) = Some (Bool true, rest).
Proof.
  unfold parse_literal. rewrite (starts_with_lit_app "true" rest). reflexivity.
Qed.

Lemma parse_literal_false (rest : string) :
  parse_literal ("false" ++ rest) = Some (Bool false, rest).
Proof.
  unfold parse_literal. rewrite (starts_with_lit_app "false" rest). reflexivity.
Qed.

Lemma member_texts_cons (k : string) (x : jsval) (l : list (string * jsval)) :
  canonical x ->
  member_texts ((k, x) :: l) = (quote k ++ ":" ++ elem_text x) :: member_texts l.
Proof. intros H. cbn [member_texts]. now rewrite (canonical_serialize x H). Qed.

Lemma elem_text_arr (items : list jsval) :
  elem_text (Arr items) = "[" ++ join "," (map elem_text items) ++ "]".
Proof. reflexivity. Qed.

Lemma elem_text_obj (props : list (string * jsval)) :
  elem_text (Obj props) = "{" ++ join "," (member_texts props) ++ "}".
Proof. reflexivity. Qed.

Lemma join_two (sep x y : string) (l : list string) :
  join sep (x :: y :: l) = x ++ sep ++ join sep (y :: l).
Proof. reflexivity. Qed.

(** By induction on the fuel: the three parsers call one another with one
    unit less. *)
Lemma round_trip (f : nat) : round_trip_at f.
Proof.
  induction f as [|f (PV & PE & PM)]; unfold round_trip_at.
  - split; [|split].
    + intros v rest Hv _ Hlen. pose proof (elem_text_length v Hv). lia.
    + intros; lia.
    + intros; lia.
  - split; [|split].
    + (* values *)
      intros v rest Hv Hend Hlen. rewrite parse_value_S.
      destruct v as [| |[|]|[z|]|s|items|props]; cbn [canonical] in Hv;
        try contradiction.
      * change (elem_text Null) with "null".
        change (skip_ws ("null" ++ rest)) with ("null" ++ rest).
        cbn -[parse_literal append]. apply parse_literal_null.
      * change (elem_text (Bool true)) with "true".
        change (skip_ws ("true" ++ rest)) with ("true" ++ rest).
        cbn -[parse_literal append]. apply parse_literal_true.
      * change (elem_text (Bool false)) with "false".
        change (skip_ws ("false" ++ rest)) with ("false" ++ rest).
        cbn -[parse_literal append]. apply parse_literal_false.
      * change (elem_text (Num (Int z))) with (dec z).
        pose proof (parse_int_dec z rest Hv Hend) as Hp.
        destruct (dec_head z) as (c & t & E & Hc). rewrite E in *.
        cbn [append] in *.
        destruct (sign_or_digit_opens c Hc) as (Hws & _ & _).
        rewrite (skip_ws_head _ _ Hws). cbv zeta.
        assert (Hb : (byte_of_ascii c =? 123) = false
                     /\ (byte_of_ascii c =? 91) = false
                     /\ (byte_of_ascii c =? 34) = false
                     /\ ((byte_of_ascii c =? 45) || is_digit c) = true).
        { destruct Hc as [-> | Hd]; [repeat split; reflexivity|].
          apply digit_cases in Hd. each_digit Hd; repeat split; reflexivity. }
        destruct Hb as (-> & -> & -> & ->). rewrite Hp. reflexivity.
      * change (elem_text (Str s)) with (quote s). unfold quote.
        cbn [append]. rewrite skip_ws_head by reflexivity. cbv zeta.
        change (byte_of_ascii dquote =? 123) with false.
        change (byte_of_ascii dquote =? 91) with false.
        change (byte_of_ascii dquote =? 34) with true. cbv iota.
        rewrite string_app_assoc. cbn [str1 append].
        rewrite (parse_chars_escape s rest Hv). reflexivity.
      * (* arrays *)
        rewrite elem_text_arr in *.
        destruct items as [|x items].
        -- reflexivity.
        -- change (canonical_items (x :: items)) in Hv.
           cbn [append] in *. rewrite skip_ws_head by reflexivity. cbv zeta.
           change (byte_of_ascii "[" =? 123) with false.
           change (byte_of_ascii "[" =? 91) with true. cbv iota.
           rewrite string_app_assoc.
           change ("]" ++ rest) with (String "]" rest).
           pose proof Hv as [Hx _].
           destruct (elem_text_head x Hx) as (c & t & E & Hws & H93 & _).
           assert (Hpeek : exists r',
                      peek (join "," (map elem_text (x :: items)) ++ String "]" rest)
                      = Some (byte_of_ascii c, r')).
           { destruct items as [|y items]; cbn [map join]; rewrite E;
               cbn [append]; rewrite (peek_head _ _ Hws); eauto. }
           destruct Hpeek as (r' & ->).
           apply Z.eqb_neq in H93. rewrite H93.
           apply PE; [exact Hv|].
           cbn [String.length] in Hlen. rewrite length_append in Hlen. lia.
      * (* objects *)
        rewrite elem_text_obj in *.
        destruct Hv as [Hm Hord]. change (canonical_members props) in Hm.
        destruct props as [|[k x] props].
        -- reflexivity.
        -- cbn [append] in *. rewrite skip_ws_head by reflexivity. cbv zeta.
           change (byte_of_ascii "{" =? 123) with true. cbv iota.
           rewrite string_app_assoc.
           change ("}" ++ rest) with (String "}" rest).
           pose proof Hm as (Hk & Hx & _).
           assert (Hpeek : exists r',
                      peek (join "," (member_texts ((k, x) :: props)) ++ String "}" rest)
                      = Some (34, r')).
           { rewrite (member_texts_cons k x props Hx).
             destruct (member_texts props); cbn [join]; unfold quote;
               cbn [append]; rewrite peek_head by reflexivity; eauto. }
           destruct Hpeek as (r' & ->).
           change (34 =? 125) with false. cbv iota.
           rewrite (PM (k, x) props [] rest Hm).
           ++ now rewrite Hord.
           ++ cbn [String.length] in Hlen. rewrite length_append in Hlen. lia.
    + (* elements *)
      intros x items acc rest [Hx Hitems] Hlen. rewrite parse_elements_S.
      pose proof (elem_text_length x Hx) as Hx1.
      destruct items as [|y items].
      * cbn [map join] in *.
        rewrite (PV x (String "]" rest) Hx eq_refl) by lia.
        rewrite peek_head by reflexivity.
        change (byte_of_ascii "]" =? 44) with false.
        change (byte_of_ascii "]" =? 93) with true. reflexivity.
      * change (map elem_text (x :: y :: items))
          with (elem_text x :: elem_text y :: map elem_text items) in *.
        rewrite join_two in *.
        change (elem_text y :: map elem_text items)
          with (map elem_text (y :: items)) in *.
        rewrite !string_app_assoc.
        rewrite !length_append in Hlen.
        change ("," ++ join "," (map elem_text (y :: items)) ++ String "]" rest)
          with (String "," (join "," (map elem_text (y :: items)) ++ String "]" rest)).
        rewrite (PV x (String "," (join "," (map elem_text (y :: items))
                                     ++ String "]" rest)) Hx eq_refl)
          by (cbn [String.length] in Hlen; lia).
        rewrite peek_head by reflexivity.
        change (byte_of_ascii "," =? 44) with true. cbv iota.
        rewrite (PE y items (acc ++ [x])%list rest Hitems).
        -- now rewrite <- app_assoc.
        -- cbn [String.length] in Hlen. lia.
    + (* members *)
      intros [k x] props acc rest (Hk & Hx & Hprops) Hlen. rewrite parse_members_S.
      pose proof (elem_text_length x Hx) as Hx1.
      rewrite (member_texts_cons k x props Hx) in *.
      assert (Hmember : forall tail,
                 (quote k ++ ":" ++ elem_text x) ++ tail
                 = String dquote (escape k ++ String dquote
                                    (String ":" (elem_text x ++ tail)))).
      { intros tail. unfold quote. cbn [append].
        rewrite !string_app_assoc. reflexivity. }
      assert (Hmlen : (String.length (elem_text x) + 3
                       <= String.length (quote k ++ ":" ++ elem_text x))%nat).
      { unfold quote, str1. cbn [String.length append]. rewrite !length_append.
        cbn [String.length]. lia. }
      destruct props as [|[k' x'] props].
      * cbn [member_texts join] in *. rewrite Hmember.
        rewrite peek_head by reflexivity.
        change (byte_of_ascii dquote =? 34) with true. cbv iota.
        rewrite (parse_chars_escape k _ Hk).
        rewrite peek_head by reflexivity.
        change (byte_of_ascii ":" =? 58) with true. cbv iota.
        rewrite (PV x (String "}" rest) Hx eq_refl) by lia.
        rewrite peek_head by reflexivity.
        change (byte_of_ascii "}" =? 44) with false.
        change (byte_of_ascii "}" =? 125) with true. reflexivity.
      * destruct Hprops as (Hk' & Hx' & Hprops').
        assert (Hm' : canonical_members ((k', x') :: props)) by (repeat split; assumption).
        rewrite (member_texts_cons k' x' props Hx') in *.
        rewrite join_two in *. rewrite string_app_assoc, Hmember.
        rewrite !length_append in Hlen.
        rewrite peek_head by reflexivity.
        change (byte_of_ascii dquote =? 34) with true. cbv iota.
        rewrite (parse_chars_escape k _ Hk).
        rewrite peek_head by reflexivity.
        change (byte_of_ascii ":" =? 58) with true. cbv iota.
        rewrite string_app_assoc.
        change ("," ++ ?a) with (String "," a).
        match goal with
        | |- context [parse_value f (elem_text x ++ ?tail)] =>
            change tail with (String "," (join "," ((quote k' ++ ":" ++ elem_text x') :: member_texts props) ++ String "}" rest))
        end.
        rewrite (PV x (String "," (join "," ((quote k' ++ ":" ++ elem_text x')
                                              :: member_texts props)
                                     ++ String "}" rest)) Hx eq_refl)
          by (cbn [String.length] in Hlen; lia).
        rewrite peek_head by reflexivity.
        change (byte_of_ascii "," =? 44) with true. cbv iota.
        rewrite <- (member_texts_cons k' x' props Hx').
        rewrite (PM (k', x') props (set_prop k x acc) rest Hm').
        -- reflexivity.
        -- rewrite (member_texts_cons k' x' props Hx').
           cbn [String.length] in Hlen. lia.
Qed.

(** ** The webhook on a stringified body *)

Lemma canonical_stringify (v : jsval) :
  canonical v -> JSON_stringify v = elem_text v.
Proof.
  intros H. unfold JSON_stringify. now rewrite (canonical_serialize v H).
Qed.

(** [JSON.parse(JSON.stringify(v))] is [v]. *)
Lemma JSON_parse_stringify (v : jsval) :
  canonical v -> JSON_parse (JSON_stringify v) = Some v.
Proof.
  intros H. rewrite (canonical_stringify v H). unfold JSON_parse.
  destruct (round_trip (2 * String.length (elem_text v) + 2)) as (PV & _ & _).
  rewrite <- (append_nil (elem_text v)) at 2.
  rewrite (PV v "" H eq_refl) by lia. reflexivity.
Qed.

Lemma express_json_stringify (b : parsed_body) :
  canonical (body_value b) ->
  Z.of_nat (String.length (JSON_stringify (body_value b))) <= 102400 ->
  express_json (JSON_stringify (body_value b)) = Some (body_value b).
Proof.
  intros Hc Hlen. unfold express_json.
  replace (102400 <? _) with false by (symmetry; apply Z.ltb_ge; exact Hlen).
  pose proof (JSON_parse_stringify _ Hc) as Hp.
  rewrite (canonical_stringify _ Hc) in *.
  destruct b as [props|items]; cbn [body_value] in *.
  - rewrite elem_text_obj in *. cbn [append] in *.
    rewrite peek_head by reflexivity. exact Hp.
  - rewrite elem_text_arr in *. cbn [append] in *.
    rewrite peek_head by reflexivity. exact Hp.
Qed.

(** X10. A sender that prints its event with [JSON.stringify] and signs
    the printed bytes is accepted: for every canonical event of at most
    100kb, the middleware parses the printed text back to the event, and
    the delivery signed with the HMAC of that text is answered 200 and
    dispatched on the event's own tag. *)
Theorem webhook_accepts_stringified_body (secret : string) (b : parsed_body) :
  canonical (body_value b) ->
  Z.of_nat (String.length (JSON_stringify (body_value b))) <= 102400 ->
  let raw := JSON_stringify (body_value b) in
  express_json raw = Some (body_value b)
  /\ deliver_webhook secret raw (Some (hmac_sha256_hex secret raw))
     = Some ([dispatch (body_value b)], Send 200 "Webhook received").
Proof.
  intros Hc Hlen raw.
  pose proof (express_json_stringify b Hc Hlen) as Hp. fold raw in Hp.
  split; [exact Hp|].
  unfold deliver_webhook. rewrite Hp.
  replace (as_parsed (body_value b)) with (Some b) by (now destruct b).
  rewrite webhook_accept; [reflexivity|reflexivity].
Qed.

Lemma webhook_accepts_stringified_body_witness :
  let b := BodyObj [("event", Str "charge.success");
                    ("data", Obj [("id", Num (Int 302961));
                                  ("amount", Num (Int 10000));
                                  ("reference", Str "qTPrJoy9Bx");
                                  ("metadata", Null);
                                  ("log", Arr [Bool true; Str "a/b"])])] in
  let raw := dq "{'event':'charge.success','data':{'id':302961,'amount':10000,'reference':'qTPrJoy9Bx','metadata':null,'log':[true,'a/b']}}" in
  canonical (body_value b)
  /\ Z.of_nat (String.length (JSON_stringify (body_value b))) <= 102400
  /\ JSON_stringify (body_value b) = raw
  /\ deliver_webhook sample_secret (JSON_stringify (body_value b))
       (Some (hmac_sha256_hex sample_secret (JSON_stringify (body_value b))))
     = Some ([dispatch (body_value b)], Send 200 "Webhook received").
Proof.
  intros b raw.
  assert (H1 : canonical (body_value b)) by (cbn; repeat split; reflexivity).
  assert (H2 : Z.of_nat (String.length (JSON_stringify (body_value b))) <= 102400)
    by (vm_compute; discriminate).
  split; [exact H1|]. split; [exact H2|].
  split; [vm_compute; reflexivity|].
  exact (proj2 (webhook_accepts_stringified_body sample_secret b H1 H2)).
Defined.
